(** * go-dns: the DNS message codec, embedded and verified

    A shallow embedding of the packet buffer ([BytePacketBuffer]) and of the
    message codec ([DnsHeader], [DnsQuestion], [DnsRecord], [DnsPacket]) of
    the [dns] package, followed by the properties of the codec.

    Conventions.
    - Go's [byte], [uint16] and [uint32] are [Z] with the wrap-around written
      out ([uint8], [uint16], [uint32]).
    - [Buf [512]byte] is a [list Z]; a buffer is well formed ([buf_wf]) when
      it has 512 entries, each a byte, and a 16-bit cursor.
    - A method on [*BytePacketBuffer] is a state transformer [M A]: it takes
      the buffer and returns an [outcome] together with the buffer it leaves
      behind.  An outcome is a value, one of the errors the package creates,
      or a Go run-time panic (index or slice bounds out of range).
    - Go strings are [string]; their bytes are the codes of their characters. *)

From Stdlib Require Import ZArith Lia String Ascii List Bool.
From stdpp Require Import base list.
Import ListNotations.

Local Open Scope Z_scope.

(** ** Machine integers *)

Definition uint8 (z : Z) : Z := z mod 256.
Definition uint16 (z : Z) : Z := z mod 65536.
Definition uint32 (z : Z) : Z := z mod 4294967296.

Definition is_byte (z : Z) : Prop := 0 <= z < 256.
Definition is_uint16 (z : Z) : Prop := 0 <= z < 65536.

(** ** Outcomes and the buffer monad *)

Inductive error : Type :=
| EndOfBuffer      (* errors.New("end of buffer") *)
| TooManyJumps     (* fmt.Errorf("limit of %d jums exceeded", maxJums) *)
| LabelTooLong     (* errors.New("signle label exceeds 63 characters of length") *)
| InvalidIPv4      (* errors.New("invalid IPv4 address") *)
| InvalidIPv6.     (* fmt.Errorf("invalid IPv6 address") *)

Inductive outcome (A : Type) : Type :=
| Ok (a : A)
| Err (e : error)
| Panic.

Arguments Ok {A} a.
Arguments Err {A} e.
Arguments Panic {A}.

Record BytePacketBuffer : Type := mkBuffer { Buf : list Z; Pos : Z }.

Definition M (A : Type) : Type := BytePacketBuffer -> outcome A * BytePacketBuffer.

Definition ret {A} (a : A) : M A := fun b => (Ok a, b).
Definition fail {A} (e : error) : M A := fun b => (Err e, b).
Definition bind {A B} (m : M A) (k : A -> M B) : M B :=
  fun b => match m b with
           | (Ok a, b') => k a b'
           | (Err e, b') => (Err e, b')
           | (Panic, b') => (Panic, b')
           end.

Declare Scope buf_scope.
Delimit Scope buf_scope with buf.
Notation "x <- m ;; k" := (bind m (fun x => k))
  (at level 100, m at next level, right associativity) : buf_scope.
Notation "m ;;; k" := (bind m (fun _ => k))
  (at level 100, right associativity) : buf_scope.
Local Open Scope buf_scope.

(** ** The cursor buffer *)

Definition buf_wf (b : BytePacketBuffer) : Prop :=
  length (Buf b) = 512%nat /\ Forall is_byte (Buf b) /\ is_uint16 (Pos b).

Definition NewBytePacketBuffer : BytePacketBuffer := mkBuffer (replicate 512 0) 0.

(** [copy(b.Buf[:], buf)]: the first [min 512 (len buf)] bytes are replaced. *)
Definition SetBuffer (data : list Z) (b : BytePacketBuffer) : BytePacketBuffer :=
  let n := Nat.min (length data) (length (Buf b)) in
  mkBuffer (take n data ++ drop n (Buf b)) (Pos b).

(** [b.Buf[pos]] for an index the array has. *)
Definition byte_at (b : BytePacketBuffer) (pos : Z) : Z :=
  default 0 (Buf b !! Z.to_nat pos).

(** [Set]: [b.Buf[pos] = val]; indexing the array at 512 or more panics. *)
Definition Set_ (pos val : Z) : M unit := fun b =>
  if 512 <=? pos then (Panic, b)
  else (Ok tt, mkBuffer (<[Z.to_nat pos := val]> (Buf b)) (Pos b)).

Definition Set2Bytes (pos val : Z) : M unit :=
  Set_ pos (uint8 (Z.shiftr val 8)) ;;;
  Set_ (uint16 (pos + 1)) (uint8 (Z.land val 255)).

Definition Step (steps : Z) : M unit := fun b =>
  (Ok tt, mkBuffer (Buf b) (uint16 (Pos b + steps))).

Definition Seek (pos : Z) : M unit := fun b =>
  (Ok tt, mkBuffer (Buf b) pos).

Definition Read : M Z := fun b =>
  if 512 <=? Pos b then (Err EndOfBuffer, b)
  else (Ok (byte_at b (Pos b)), mkBuffer (Buf b) (uint16 (Pos b + 1))).

Definition Get (pos : Z) : M Z := fun b =>
  if 512 <=? pos then (Err EndOfBuffer, b)
  else (Ok (byte_at b pos), b).

(** [b.Buf[start : start+len]] with the sum taken in [uint16]; the slice
    expression panics when its low bound exceeds its high bound. *)
Definition GetRange (start len : Z) : M (list Z) := fun b =>
  let stop := uint16 (start + len) in
  if 512 <=? stop then (Err EndOfBuffer, b)
  else if stop <? start then (Panic, b)
  else (Ok (take (Z.to_nat (stop - start)) (drop (Z.to_nat start) (Buf b))), b).

Definition Read2Bytes : M Z :=
  byte1 <- Read ;;
  byte2 <- Read ;;
  ret (Z.lor (uint16 (Z.shiftl byte1 8)) byte2).

Definition Read4Bytes : M Z :=
  byte1 <- Read ;;
  byte2 <- Read ;;
  byte3 <- Read ;;
  byte4 <- Read ;;
  ret (Z.lor (Z.lor (Z.lor (uint32 (Z.shiftl byte1 24)) (uint32 (Z.shiftl byte2 16)))
                    (uint32 (Z.shiftl byte3 8))) byte4).

Definition write (val : Z) : M unit := fun b =>
  if 512 <=? Pos b then (Err EndOfBuffer, b)
  else (Ok tt, mkBuffer (<[Z.to_nat (Pos b) := val]> (Buf b)) (uint16 (Pos b + 1))).

Definition Write1Byte (val : Z) : M unit := write val.

Definition Write2Byte (val : Z) : M unit :=
  write (uint8 (Z.shiftr val 8)) ;;;
  write (uint8 (Z.land val 255)).

Definition Write4Byte (val : Z) : M unit :=
  write (uint8 (Z.land (Z.shiftr val 24) 255)) ;;;
  write (uint8 (Z.land (Z.shiftr val 16) 255)) ;;;
  write (uint8 (Z.land (Z.shiftr val 8) 255)) ;;;
  write (uint8 (Z.land val 255)).

(** ** Strings and their bytes *)

Definition byte_of_ascii (c : ascii) : Z := Z.of_N (N_of_ascii c).
Definition ascii_of_byte (z : Z) : ascii := ascii_of_N (Z.to_N z).

Definition bytes_of_string (s : string) : list Z :=
  map byte_of_ascii (list_ascii_of_string s).
Definition string_of_bytes (l : list Z) : string :=
  string_of_list_ascii (map ascii_of_byte l).

(** [len(label)]: the number of bytes of a Go string. *)
Definition strlen (s : string) : Z := Z.of_nat (String.length s).

(** [strings.Split(s, ".")]: the pieces between the dots, never an empty list. *)
Fixpoint Split_dot (s : string) : list string :=
  match s with
  | EmptyString => [EmptyString]
  | String c rest =>
      if Ascii.eqb c "."%char then EmptyString :: Split_dot rest
      else match Split_dot rest with
           | l :: ls => String c l :: ls
           | [] => [String c EmptyString]
           end
  end.

(** [strings.ToLower] on ASCII text: the letters A to Z are moved to a to z.
    Bytes from 0x80 on are kept as they are (Go decodes them as UTF-8). *)
Definition lower_ascii (c : ascii) : ascii :=
  let n := byte_of_ascii c in
  if (65 <=? n) && (n <=? 90) then ascii_of_byte (n + 32) else c.

Fixpoint ToLower (s : string) : string :=
  match s with
  | EmptyString => EmptyString
  | String c rest => String (lower_ascii c) (ToLower rest)
  end.

(** ** The name codec *)

Definition maxJums : Z := 5.

(** One pass of the [for] loop of [ReadQName] per unit of fuel.  The loop
    leaves through [break] with the local position, the [jumped] flag and
    the text built so far; [None] means the fuel ran out. *)
Fixpoint ReadQName_loop (fuel : nat) (pos : Z) (jumped : bool) (jumpsPerformed : Z)
    (delim sb : string) (b : BytePacketBuffer)
    : option (outcome (Z * bool * string) * BytePacketBuffer) :=
  match fuel with
  | O => None
  | S fuel' =>
      if maxJums <? jumpsPerformed then Some (Err TooManyJumps, b)
      else
        match Get pos b with
        | (Ok lenByte, b1) =>
            if Z.land lenByte 192 =? 192 then
              match (if jumped then ret tt else Seek (uint16 (pos + 2))) b1 with
              | (Ok _, b2) =>
                  match Get (uint16 (pos + 1)) b2 with
                  | (Ok b2byte, b3) =>
                      let offset :=
                        Z.lor (uint16 (Z.shiftl (Z.lxor lenByte 192) 8)) b2byte in
                      ReadQName_loop fuel' offset true (jumpsPerformed + 1) delim sb b3
                  | (Err e, b3) => Some (Err e, b3)
                  | (Panic, b3) => Some (Panic, b3)
                  end
              | (Err e, b2) => Some (Err e, b2)
              | (Panic, b2) => Some (Panic, b2)
              end
            else
              let pos1 := uint16 (pos + 1) in
              if lenByte =? 0 then Some (Ok (pos1, jumped, sb), b1)
              else
                let sb1 := (sb ++ delim)%string in
                match GetRange pos1 lenByte b1 with
                | (Ok bs, b2) =>
                    let sb2 := (sb1 ++ ToLower (string_of_bytes bs))%string in
                    ReadQName_loop fuel' (uint16 (pos1 + lenByte)) jumped jumpsPerformed
                                   "." sb2 b2
                | (Err e, b2) => Some (Err e, b2)
                | (Panic, b2) => Some (Panic, b2)
                end
        | (Err e, b1) => Some (Err e, b1)
        | (Panic, b1) => Some (Panic, b1)
        end
  end.

(** The loop runs at most 6 jumps and, between two jumps, at most 512 label
    steps: [ReadQName_fuel] passes are always enough (see the totality
    theorem below). *)
Definition ReadQName_fuel : nat := 4096.

Definition ReadQName_with (fuel : nat) (b : BytePacketBuffer)
    : option (outcome string * BytePacketBuffer) :=
  match ReadQName_loop fuel (Pos b) false 0 "" "" b with
  | None => None
  | Some (Ok (pos, jumped, sb), b1) =>
      if jumped then Some (Ok sb, b1)
      else match Seek pos b1 with
           | (Ok _, b2) => Some (Ok sb, b2)
           | (Err e, b2) => Some (Err e, b2)
           | (Panic, b2) => Some (Panic, b2)
           end
  | Some (Err e, b1) => Some (Err e, b1)
  | Some (Panic, b1) => Some (Panic, b1)
  end.

Definition ReadQName (b : BytePacketBuffer) : option (outcome string * BytePacketBuffer) :=
  ReadQName_with ReadQName_fuel b.

(** [for _, b1 := range []byte(label) { b.Write1Byte(b1) }] *)
Fixpoint write_bytes (l : list Z) : M unit :=
  match l with
  | [] => ret tt
  | b1 :: l' => Write1Byte b1 ;;; write_bytes l'
  end.

(** The body of the outer [for] of [WriteQName] for one label. *)
Definition WriteQName_label (label : string) : M unit :=
  let n := strlen label in
  if 63 <? n then fail LabelTooLong
  else
    Write1Byte (uint8 n) ;;;
    write_bytes (bytes_of_string label) ;;;
    Write1Byte 0.

Fixpoint WriteQName_labels (labels : list string) : M unit :=
  match labels with
  | [] => ret tt
  | label :: rest => WriteQName_label label ;;; WriteQName_labels rest
  end.

Definition WriteQName (qname : string) : M unit :=
  WriteQName_labels (Split_dot qname).

(** ** The message model *)

Inductive ResultCode : Type :=
| NOERROR | FORMERR | SERVFAIL | NXDOMAIN | NOTIMP | REFUSED.

Inductive RecordType : Type :=
| UNKNOWN | A | NS | CNAME | MX | AAAA.

(** The values [iota] gives the constants. *)
Definition ResultCode_int (c : ResultCode) : Z :=
  match c with
  | NOERROR => 0 | FORMERR => 1 | SERVFAIL => 2
  | NXDOMAIN => 3 | NOTIMP => 4 | REFUSED => 5
  end.

Definition RecordType_int (t : RecordType) : Z :=
  match t with
  | UNKNOWN => 0 | A => 1 | NS => 2 | CNAME => 3 | MX => 4 | AAAA => 5
  end.

(** The field [Z] of the struct is [Z_] here. *)
Record DnsHeader : Type := mkHeader {
  ID : Z;
  RecursionDesired : bool;
  TruncatedMessage : bool;
  AuthoritativeAnswer : bool;
  Opcode : Z;
  Response : bool;
  Rescode : ResultCode;
  CheckingDisabled : bool;
  AuthedData : bool;
  Z_ : bool;
  RecursionAvailable : bool;
  Questions : Z;
  Answers : Z;
  AuthoritativeEntries : Z;
  ResourceEntries : Z
}.

Definition NewDnsHeader : DnsHeader :=
  mkHeader 0 false false false 0 false NOERROR false false false false 0 0 0 0.

Definition FromNum2ResultCode (num : Z) : ResultCode :=
  if num =? 1 then FORMERR
  else if num =? 2 then SERVFAIL
  else if num =? 3 then NXDOMAIN
  else if num =? 4 then NOTIMP
  else if num =? 5 then REFUSED
  else NOERROR.

Definition RecordTypeToNum (typ : RecordType) : Z :=
  match typ with
  | A => 1 | NS => 2 | CNAME => 5 | MX => 15 | AAAA => 28
  | UNKNOWN => 0
  end.

Definition FromNum2RecordType (num : Z) : RecordType :=
  if num =? 1 then A
  else if num =? 2 then NS
  else if num =? 5 then CNAME
  else if num =? 15 then MX
  else if num =? 28 then AAAA
  else UNKNOWN.

(** [flag |= 1 << k] under [if c]. *)
Definition set_bit (c : bool) (k : Z) (flag : Z) : Z :=
  if c then Z.lor flag (Z.shiftl 1 k) else flag.

(** [DnsHeader.Write].  The second flag byte is computed, as in the source,
    and no statement of the method writes it. *)
Definition DnsHeader_Write (h : DnsHeader) : M unit :=
  Write2Byte (ID h) ;;;
  let flag := 0 in
  let flag := set_bit (RecursionDesired h) 0 flag in
  let flag := set_bit (TruncatedMessage h) 1 flag in
  let flag := set_bit (AuthoritativeAnswer h) 2 flag in
  let flag := Z.lor flag (uint8 (Z.shiftl (Opcode h) 3)) in
  let flag := set_bit (Response h) 7 flag in
  Write1Byte flag ;;;
  let flag := 0 in
  let flag := Z.lor flag (uint8 (ResultCode_int (Rescode h))) in
  let flag := set_bit (CheckingDisabled h) 4 flag in
  let flag := set_bit (AuthedData h) 5 flag in
  let flag := set_bit (Z_ h) 6 flag in
  let flag := set_bit (RecursionAvailable h) 7 flag in
  Write2Byte (Questions h) ;;;
  Write2Byte (Answers h) ;;;
  Write2Byte (AuthoritativeEntries h) ;;;
  Write2Byte (ResourceEntries h).

(** [(a & (1 << k)) > 0] *)
Definition bit_set (a k : Z) : bool := 0 <? Z.land a (Z.shiftl 1 k).

(** [DnsHeader.Read]: the header the method leaves in [h].  On an error the
    callers drop the header, so only the full one is returned. *)
Definition DnsHeader_Read : M DnsHeader :=
  id <- Read2Bytes ;;
  flags <- Read2Bytes ;;
  let a := uint8 (Z.shiftr flags 8) in
  let b := uint8 (Z.land flags 255) in
  questions <- Read2Bytes ;;
  answers <- Read2Bytes ;;
  authoritativeEntries <- Read2Bytes ;;
  resourceEntries <- Read2Bytes ;;
  ret {| ID := id;
         RecursionDesired := bit_set a 0;
         TruncatedMessage := bit_set a 1;
         AuthoritativeAnswer := bit_set a 2;
         Opcode := Z.land (Z.shiftr a 3) 15;
         Response := bit_set a 7;
         Rescode := FromNum2ResultCode (Z.land b 15);
         CheckingDisabled := bit_set b 4;
         AuthedData := bit_set b 5;
         Z_ := bit_set b 6;
         RecursionAvailable := bit_set b 7;
         Questions := questions;
         Answers := answers;
         AuthoritativeEntries := authoritativeEntries;
         ResourceEntries := resourceEntries |}.

(** ** Methods that decode a name

    [ReadQName] carries fuel, so the methods that call it return an option;
    [None] stands for a decoder that ran out of fuel, which the totality
    theorem excludes for well-formed buffers. *)

Definition MF (A : Type) : Type :=
  BytePacketBuffer -> option (outcome A * BytePacketBuffer).

Definition liftF {A} (m : M A) : MF A := fun b => Some (m b).
Definition retF {A} (a : A) : MF A := liftF (ret a).
Definition bindF {A B} (m : MF A) (k : A -> MF B) : MF B :=
  fun b => match m b with
           | None => None
           | Some (Ok a, b') => k a b'
           | Some (Err e, b') => Some (Err e, b')
           | Some (Panic, b') => Some (Panic, b')
           end.

Declare Scope fuel_scope.
Delimit Scope fuel_scope with fuel.
Notation "x <- m ;; k" := (bindF m (fun x => k))
  (at level 100, m at next level, right associativity) : fuel_scope.
Notation "m ;;; k" := (bindF m (fun _ => k))
  (at level 100, right associativity) : fuel_scope.

(** ** Questions *)

(** [Type] is the field [qtype]. *)
Record DnsQuestion : Type := mkQuestion { Name : string; qtype : RecordType }.

Definition NewDnsQuestion (name : string) (t : RecordType) : DnsQuestion :=
  mkQuestion name t.

(** [DnsQuestion.Write].  The type is written as [uint16(dq.Type)], the
    value of the constant, not through [RecordTypeToNum]. *)
Definition DnsQuestion_Write (dq : DnsQuestion) : M unit :=
  WriteQName (Name dq) ;;;
  Write2Byte (uint16 (RecordType_int (qtype dq))) ;;;
  Write2Byte 1.

Definition DnsQuestion_Read : MF DnsQuestion :=
  (name <- ReadQName ;;
   t <- liftF Read2Bytes ;;
   _ <- liftF Read2Bytes ;;
   retF (mkQuestion name (FromNum2RecordType t)))%fuel.

(** ** Records *)

(** [net.IP] is a byte slice; the empty list is Go's [nil]. *)
Definition IP : Type := list Z.

Definition v4InV6Prefix : IP := [0; 0; 0; 0; 0; 0; 0; 0; 0; 0; 255; 255].

(** [net.IPv4] of the Go library: the 16-byte form of an IPv4 address. *)
Definition IPv4 (a b c d : Z) : IP := v4InV6Prefix ++ [a; b; c; d].

(** [net.IP.To4] of the Go library. *)
Definition To4 (ip : IP) : option IP :=
  if (length ip =? 4)%nat then Some ip
  else if (length ip =? 16)%nat && forallb (Z.eqb 0) (take 10 ip)
          && (nth 10 ip 0 =? 255) && (nth 11 ip 0 =? 255)
       then Some (drop 12 ip)
  else None.

(** [net.IP.To16] of the Go library. *)
Definition To16 (ip : IP) : option IP :=
  match ip with
  | [a; b; c; d] => Some (IPv4 a b c d)
  | _ => if (length ip =? 16)%nat then Some ip else None
  end.

(** The field [Type] of the struct is [Type_] here. *)
Record DnsRecord : Type := mkRecord {
  Type_ : RecordType;
  Domain : string;
  QType : Z;
  DataLen : Z;
  TTL : Z;
  Addr : IP;
  Host : string;
  Priority : Z
}.

Definition NewUnknownDnsRecord (domain : string) (qt dataLen ttl : Z) : DnsRecord :=
  mkRecord UNKNOWN domain qt dataLen ttl [] "" 0.
Definition NewADnsRecord (domain : string) (addr : IP) (ttl : Z) : DnsRecord :=
  mkRecord A domain 0 0 ttl addr "" 0.
Definition NewNSDnsRecord (domain host : string) (ttl : Z) : DnsRecord :=
  mkRecord NS domain 0 0 ttl [] host 0.
Definition NewCNameDnsRecord (domain host : string) (ttl : Z) : DnsRecord :=
  mkRecord CNAME domain 0 0 ttl [] host 0.
Definition NewMXDnsRecord (domain host : string) (priority ttl : Z) : DnsRecord :=
  mkRecord MX domain 0 0 ttl [] host priority.
Definition NewAAAADnsRecord (domain : string) (addr : IP) (ttl : Z) : DnsRecord :=
  mkRecord AAAA domain 0 0 ttl addr "" 0.

(** [byte((raw >> k) & 0xFF)] *)
Definition octet (raw k : Z) : Z := uint8 (Z.land (Z.shiftr raw k) 255).

Definition octets (raw : Z) : list Z :=
  [octet raw 24; octet raw 16; octet raw 8; octet raw 0].

Definition ReadDnsRecord : MF DnsRecord :=
  (domain <- ReadQName ;;
   qtypeNum <- liftF Read2Bytes ;;
   let t := FromNum2RecordType qtypeNum in
   _ <- liftF Read2Bytes ;;
   ttl <- liftF Read4Bytes ;;
   dataLen <- liftF Read2Bytes ;;
   match t with
   | A =>
       rawAddr <- liftF Read4Bytes ;;
       let addr := IPv4 (octet rawAddr 24) (octet rawAddr 16)
                        (octet rawAddr 8) (octet rawAddr 0) in
       retF (NewADnsRecord domain addr ttl)
   | AAAA =>
       raw_addr1 <- liftF Read4Bytes ;;
       raw_addr2 <- liftF Read4Bytes ;;
       raw_addr3 <- liftF Read4Bytes ;;
       raw_addr4 <- liftF Read4Bytes ;;
       let addr := octets raw_addr1 ++ octets raw_addr2
                   ++ octets raw_addr3 ++ octets raw_addr4 in
       retF (NewAAAADnsRecord domain addr ttl)
   | NS =>
       ns <- ReadQName ;;
       retF (NewNSDnsRecord domain ns ttl)
   | CNAME =>
       cname <- ReadQName ;;
       retF (NewCNameDnsRecord domain cname ttl)
   | MX =>
       priority <- liftF Read2Bytes ;;
       mx <- ReadQName ;;
       retF (NewMXDnsRecord domain mx priority ttl)
   | UNKNOWN =>
       _ <- liftF (Step (uint16 dataLen)) ;;
       retF (mkRecord UNKNOWN domain qtypeNum dataLen ttl [] "" 0)
   end)%fuel.

(** The four writes that open the case of every known type in the [switch]
    of [DnsRecord.Write]: name, type code, class 1, TTL.  The [UNKNOWN] case
    has none of them. *)
Definition write_preamble (d : DnsRecord) (t : RecordType) : M unit :=
  WriteQName (Domain d) ;;;
  Write2Byte (uint16 (RecordTypeToNum t)) ;;;
  Write2Byte 1 ;;;
  Write4Byte (TTL d).

(** [binary.BigEndian.Uint16(ip[i : i+2])] written for each pair of [ip]. *)
Fixpoint write_segments (ip : list Z) : M unit :=
  match ip with
  | hi :: lo :: rest =>
      Write2Byte (Z.lor (uint16 (Z.shiftl hi 8)) lo) ;;; write_segments rest
  | _ => ret tt
  end.

(** [size := buffer.Pos - (pos + 2); buffer.Set2Bytes(pos, size)] *)
Definition backpatch (pos : Z) : M unit := fun b =>
  Set2Bytes pos (uint16 (Pos b - uint16 (pos + 2))) b.

Definition get_Pos : M Z := fun b => (Ok (Pos b), b).

(** The [switch] of [DnsRecord.Write]. *)
Definition DnsRecord_Write_body (d : DnsRecord) : M unit :=
  match Type_ d with
  | A =>
      write_preamble d A ;;;
      Write2Byte 4 ;;;
      match To4 (Addr d) with
      | None => fail InvalidIPv4
      | Some ip =>
          Write1Byte (nth 0 ip 0) ;;;
          Write1Byte (nth 1 ip 0) ;;;
          Write1Byte (nth 2 ip 0) ;;;
          Write1Byte (nth 3 ip 0)
      end
  | NS =>
      write_preamble d NS ;;;
      pos <- get_Pos ;;
      Write2Byte 0 ;;;
      WriteQName (Host d) ;;;
      backpatch pos
  | CNAME =>
      write_preamble d CNAME ;;;
      pos <- get_Pos ;;
      Write2Byte 0 ;;;
      WriteQName (Host d) ;;;
      backpatch pos
  | MX =>
      write_preamble d MX ;;;
      pos <- get_Pos ;;
      Write2Byte 0 ;;;
      Write2Byte (Priority d) ;;;
      WriteQName (Host d) ;;;
      backpatch pos
  | AAAA =>
      write_preamble d AAAA ;;;
      pos <- get_Pos ;;
      Write2Byte 16 ;;;
      match To16 (Addr d) with
      | None => fail InvalidIPv6
      | Some ip =>
          write_segments ip ;;;
          backpatch pos
      end
  | UNKNOWN => ret tt      (* fmt.Printf("Skipping record: %v\n", d) *)
  end.

(** [DnsRecord.Write]: the count returned is [buffer.Pos - startPos]; on an
    error the method returns 0 with the error, here the error alone. *)
Definition DnsRecord_Write (d : DnsRecord) : M Z :=
  startPos <- get_Pos ;;
  DnsRecord_Write_body d ;;;
  pos <- get_Pos ;;
  ret (uint16 (pos - startPos)).

(** ** Messages *)

(** The fields [Questions] and [Answers] of the struct are [PQuestions] and
    [PAnswers] here, apart from the counts of the header. *)
Record DnsPacket : Type := mkPacket {
  Header : DnsHeader;
  PQuestions : list DnsQuestion;
  PAnswers : list DnsRecord;
  Authorities : list DnsRecord;
  Resources : list DnsRecord
}.

Definition NewDnsPacket : DnsPacket := mkPacket NewDnsHeader [] [] [] [].

(** The four assignments that open [DnsPacket.Write]. *)
Definition set_counts (d : DnsPacket) : DnsPacket :=
  let h := Header d in
  let count {X} (l : list X) := uint16 (Z.of_nat (length l)) in
  mkPacket
    (mkHeader (ID h) (RecursionDesired h) (TruncatedMessage h)
              (AuthoritativeAnswer h) (Opcode h) (Response h) (Rescode h)
              (CheckingDisabled h) (AuthedData h) (Z_ h) (RecursionAvailable h)
              (count (PQuestions d)) (count (PAnswers d))
              (count (Authorities d)) (count (Resources d)))
    (PQuestions d) (PAnswers d) (Authorities d) (Resources d).

Fixpoint write_questions (l : list DnsQuestion) : M unit :=
  match l with
  | [] => ret tt
  | q :: rest => DnsQuestion_Write q ;;; write_questions rest
  end.

Fixpoint write_records (l : list DnsRecord) : M unit :=
  match l with
  | [] => ret tt
  | r :: rest => DnsRecord_Write r ;;; write_records rest
  end.

(** [DnsPacket.Write]: the packet it returns is [d] with the counts the
    method stored in its header. *)
Definition DnsPacket_Write (d : DnsPacket) : M DnsPacket :=
  let d' := set_counts d in
  DnsHeader_Write (Header d') ;;;
  write_questions (PQuestions d') ;;;
  write_records (PAnswers d') ;;;
  write_records (Authorities d') ;;;
  write_records (Resources d') ;;;
  ret d'.

(** [for i := 0; i < int(count); i++ { ...; list = append(list, x) }] *)
Fixpoint read_many {X} (read : MF X) (n : nat) (acc : list X) : MF (list X) :=
  match n with
  | O => retF acc
  | S n' => (x <- read ;; read_many read n' (acc ++ [x]))%fuel
  end.

Definition FromBuffer2DnsPacket : MF DnsPacket :=
  (h <- liftF DnsHeader_Read ;;
   qs <- read_many DnsQuestion_Read (Z.to_nat (Questions h)) [] ;;
   ans <- read_many ReadDnsRecord (Z.to_nat (Answers h)) [] ;;
   auth <- read_many ReadDnsRecord (Z.to_nat (AuthoritativeEntries h)) [] ;;
   res <- read_many ReadDnsRecord (Z.to_nat (ResourceEntries h)) [] ;;
   retF (mkPacket h qs ans auth res))%fuel.

(** ** Vocabulary of the properties *)

(** [b.Buf[start : start+n]] *)
Definition slice (b : BytePacketBuffer) (start n : Z) : list Z :=
  take (Z.to_nat n) (drop (Z.to_nat start) (Buf b)).

(** The bytes between the start of the array and the cursor. *)
Definition written (b : BytePacketBuffer) : list Z := slice b 0 (Pos b).

(** The same bytes offered to a decoder: the cursor back at 0. *)
Definition rewind (b : BytePacketBuffer) : BytePacketBuffer := mkBuffer (Buf b) 0.

(** The bytes one pass of the loop of [WriteQName] emits for a label, and
    those the method emits for a name. *)
Definition label_wire (label : string) : list Z :=
  uint8 (strlen label) :: bytes_of_string label ++ [0].

Definition qname_wire (qname : string) : list Z :=
  concat (map label_wire (Split_dot qname)).

(** The text [ReadQName] builds from the labels it meets, given the
    separator and the text it starts from. *)
Fixpoint append_labels (delim sb : string) (labels : list string) : string :=
  match labels with
  | [] => sb
  | l :: rest => append_labels "." ((sb ++ delim) ++ l)%string rest
  end.

Definition join_dot (labels : list string) : string := append_labels "" "" labels.

(** The 14-bit offset of the compression pointer made of the bytes [hi lo]. *)
Definition pointer_offset (hi lo : Z) : Z := Z.land hi 63 * 256 + lo.

(** [name_at b pos k labels cur]: the wire format of a name, read in [b]
    from offset [pos], resolves to [labels] through [k] compression
    pointers; [cur] is the offset that follows the name in the message
    (past the terminator, or past the first pointer). *)
Inductive name_at (b : BytePacketBuffer) : Z -> nat -> list string -> Z -> Prop :=
| name_end pos :
    0 <= pos < 512 -> byte_at b pos = 0 ->
    name_at b pos 0 [] (pos + 1)
| name_label pos n k labels cur :
    0 <= pos < 512 -> byte_at b pos = n -> n <> 0 -> Z.land n 192 <> 192 ->
    name_at b (pos + 1 + n) k labels cur ->
    name_at b pos k (ToLower (string_of_bytes (slice b (pos + 1) n)) :: labels) cur
| name_pointer pos k labels cur :
    0 <= pos -> pos + 1 < 512 -> Z.land (byte_at b pos) 192 = 192 ->
    name_at b (pointer_offset (byte_at b pos) (byte_at b (pos + 1))) k labels cur ->
    name_at b pos (S k) labels (pos + 2).

(** [jumps_from b pos k]: reading a name in [b] from offset [pos] goes
    through [k] compression pointers at least. *)
Inductive jumps_from (b : BytePacketBuffer) : Z -> nat -> Prop :=
| jumps_none pos : jumps_from b pos 0
| jumps_label pos n k :
    0 <= pos < 512 -> byte_at b pos = n -> n <> 0 -> Z.land n 192 <> 192 ->
    pos + 1 + n < 512 ->
    jumps_from b (pos + 1 + n) k ->
    jumps_from b pos k
| jumps_pointer pos k :
    0 <= pos -> pos + 1 < 512 -> Z.land (byte_at b pos) 192 = 192 ->
    jumps_from b (pointer_offset (byte_at b pos) (byte_at b (pos + 1))) k ->
    jumps_from b pos (S k).

(** [[3]www[6]google[3]com[0]] *)
Definition www_google_com_wire : list Z :=
  [3; 119; 119; 119; 6; 103; 111; 111; 103; 108; 101; 3; 99; 111; 109; 0].

(** The two bytes at [p] are a compression pointer to offset [q]. *)
Definition pointer_at (b : BytePacketBuffer) (p q : Z) : Prop :=
  0 <= p /\ p + 1 < 512 /\ Z.land (byte_at b p) 192 = 192 /\
  pointer_offset (byte_at b p) (byte_at b (p + 1)) = q.

(** A bound on the passes the loop of [ReadQName] still makes: 513 for
    each jump the guard still allows, and the bytes left before offset 512. *)
Definition passes_left (jumpsPerformed pos : Z) : Z :=
  Z.max 0 (6 - jumpsPerformed) * 513 + Z.max 0 (512 - pos).

(** [buf_wf], decided. *)
Definition buf_wfb (b : BytePacketBuffer) : bool :=
  (length (Buf b) =? 512)%nat
  && forallb (fun z => (0 <=? z) && (z <? 256)) (Buf b)
  && (0 <=? Pos b) && (Pos b <? 65536).

(** A message that opens with a pointer to offset 16, where the labels of
    www.google.com are. *)
Definition compressed_name_buffer : BytePacketBuffer :=
  SetBuffer ([192; 16] ++ replicate 14 0 ++ www_google_com_wire)
            NewBytePacketBuffer.

(** A message that opens with a pointer to offset 2, where a pointer to
    offset 0 is. *)
Definition pointer_cycle_buffer : BytePacketBuffer :=
  SetBuffer [192; 2; 192; 0] NewBytePacketBuffer.

(** The NS record of example.com with the name server ns1.example.com. *)
Definition ns1_record : DnsRecord :=
  NewNSDnsRecord "example.com" "ns1.example.com" 300.

(** The buffer [DnsRecord.Write] leaves when it writes that record into a
    fresh buffer. *)
Definition ns1_written : BytePacketBuffer :=
  snd (DnsRecord_Write ns1_record NewBytePacketBuffer).


(** A message holding, from offset 0, one record with the empty name, the
    unassigned type 99, class 1, TTL 0 and the data length [dataLen]. *)
Definition unknown_record_buffer (dataLen : Z) : BytePacketBuffer :=
  SetBuffer [0; 0; 99; 0; 1; 0; 0; 0; 0; dataLen / 256; dataLen mod 256]
            NewBytePacketBuffer.

(** The request the command-line client sends: id 6666, recursion desired,
    one question for the A records of google.com. *)
Definition google_query : DnsPacket :=
  mkPacket (mkHeader 6666 true false false 0 false NOERROR
                     false false false false 1 0 0 0)
           [NewDnsQuestion "google.com" A] [] [] [].

(** [w] stored over the bytes of [B] from index [p] on. *)
Definition splice (B : list Z) (p : nat) (w : list Z) : list Z :=
  take p B ++ w ++ drop (p + length w) B.

(** [emits m w]: whenever [m] succeeds on a buffer of 512 bytes, it has
    stored [w] from the cursor on, moved the cursor past [w] and changed
    nothing else. *)
Definition emits (m : M unit) (w : list Z) : Prop :=
  forall b b',
    0 <= Pos b <= 512 -> length (Buf b) = 512%nat -> m b = (Ok tt, b') ->
    Buf b' = splice (Buf b) (Z.to_nat (Pos b)) w /\
    Pos b' = Pos b + Z.of_nat (length w) /\
    Pos b' <= 512.

(** The bytes [Write2Byte] and [Write4Byte] store for a value. *)
Definition be16 (v : Z) : list Z :=
  [uint8 (Z.shiftr v 8); uint8 (Z.land v 255)].

Definition be32 (v : Z) : list Z :=
  [uint8 (Z.land (Z.shiftr v 24) 255); uint8 (Z.land (Z.shiftr v 16) 255);
   uint8 (Z.land (Z.shiftr v 8) 255); uint8 (Z.land v 255)].

(** The bytes of the name, type, class and TTL of a record. *)
Definition preamble_wire (d : DnsRecord) (t : RecordType) : list Z :=
  qname_wire (Domain d) ++ be16 (uint16 (RecordTypeToNum t)) ++ be16 1
  ++ be32 (TTL d).

(** A response: id 6666, QR and RA set, response code NXDOMAIN, one
    question and one answer announced. *)
Definition nxdomain_response_header : DnsHeader :=
  mkHeader 6666 true false false 0 true NXDOMAIN false false false true 1 1 0 0.

(** [P] holds for the [n] integers from [start] on. *)
Fixpoint all_from (P : Z -> bool) (start : Z) (n : nat) : bool :=
  match n with
  | O => true
  | S n' => P start && all_from P (start + 1) n'
  end.

(** What [ReadDnsRecord] is to do with the record of
    [unknown_record_buffer dataLen]: keep the type code and the data length
    and move the cursor by the data length, in 16 bits. *)
Definition unknown_skip_check (dataLen : Z) : bool :=
  match ReadDnsRecord (unknown_record_buffer dataLen) with
  | Some (Ok r, b') =>
      match Type_ r with UNKNOWN => true | _ => false end
      && (QType r =? 99) && (DataLen r =? dataLen)
      && (Pos b' =? uint16 (11 + dataLen))
  | _ => false
  end.

(** ** Vocabulary of the further properties *)

(** [at_cursor b w]: the bytes [w] are in [b] from the cursor on. *)
Definition at_cursor (b : BytePacketBuffer) (w : list Z) : Prop :=
  0 <= Pos b /\ Pos b + Z.of_nat (length w) <= 512 /\
  slice b (Pos b) (Z.of_nat (length w)) = w.

(** [b] with its cursor moved [n] bytes on. *)
Definition advance (b : BytePacketBuffer) (n : Z) : BytePacketBuffer :=
  mkBuffer (Buf b) (Pos b + n).

(** [runs m w]: [m] succeeds wherever the [length w] bytes it writes fit,
    and moves the cursor past them. *)
Definition runs (m : M unit) (w : list Z) : Prop :=
  forall b,
    0 <= Pos b -> Pos b + Z.of_nat (length w) <= 512 ->
    exists b', m b = (Ok tt, b') /\ Pos b' = Pos b + Z.of_nat (length w).

(** The big-endian value of two and of four bytes. *)
Definition be16_value (hi lo : Z) : Z := hi * 256 + lo.
Definition be32_value (b1 b2 b3 b4 : Z) : Z :=
  ((b1 * 256 + b2) * 256 + b3) * 256 + b4.

(** The two flag bytes as [DnsHeader.Write] computes them. *)
Definition header_flag1 (h : DnsHeader) : Z :=
  let flag := 0 in
  let flag := set_bit (RecursionDesired h) 0 flag in
  let flag := set_bit (TruncatedMessage h) 1 flag in
  let flag := set_bit (AuthoritativeAnswer h) 2 flag in
  let flag := Z.lor flag (uint8 (Z.shiftl (Opcode h) 3)) in
  set_bit (Response h) 7 flag.

Definition header_flag2 (h : DnsHeader) : Z :=
  let flag := 0 in
  let flag := Z.lor flag (uint8 (ResultCode_int (Rescode h))) in
  let flag := set_bit (CheckingDisabled h) 4 flag in
  let flag := set_bit (AuthedData h) 5 flag in
  let flag := set_bit (Z_ h) 6 flag in
  set_bit (RecursionAvailable h) 7 flag.

(** The 12 bytes [DnsHeader.Read] takes for [h]: the id, the two flag
    bytes, the four counts. *)
Definition header_wire (h : DnsHeader) : list Z :=
  be16 (ID h) ++ [header_flag1 h; header_flag2 h]
  ++ be16 (Questions h) ++ be16 (Answers h)
  ++ be16 (AuthoritativeEntries h) ++ be16 (ResourceEntries h).

(** The bytes [DnsHeader.Write] emits for [h]: those of [header_wire]
    but for the second flag byte. *)
Definition header_written (h : DnsHeader) : list Z :=
  be16 (ID h) ++ [header_flag1 h]
  ++ be16 (Questions h) ++ be16 (Answers h)
  ++ be16 (AuthoritativeEntries h) ++ be16 (ResourceEntries h).

(** The fields of [h] fit their Go types, and the opcode its 4 bits. *)
Definition header_in_range (h : DnsHeader) : Prop :=
  is_uint16 (ID h) /\ 0 <= Opcode h < 16 /\
  is_uint16 (Questions h) /\ is_uint16 (Answers h) /\
  is_uint16 (AuthoritativeEntries h) /\ is_uint16 (ResourceEntries h).

(** The bytes [write_segments] stores for an address. *)
Fixpoint segments_wire (ip : list Z) : list Z :=
  match ip with
  | hi :: lo :: rest =>
      be16 (Z.lor (uint16 (Z.shiftl hi 8)) lo) ++ segments_wire rest
  | _ => []
  end.

(** The length field and the data that [DnsRecord.Write] leaves after the
    name, type, class and TTL of a record. *)
Definition rdata_wire (d : DnsRecord) : list Z :=
  match Type_ d with
  | A =>
      match To4 (Addr d) with
      | Some ip => be16 4 ++ [nth 0 ip 0; nth 1 ip 0; nth 2 ip 0; nth 3 ip 0]
      | None => []
      end
  | NS | CNAME =>
      be16 (Z.of_nat (length (qname_wire (Host d)))) ++ qname_wire (Host d)
  | MX =>
      be16 (2 + Z.of_nat (length (qname_wire (Host d))))
      ++ be16 (Priority d) ++ qname_wire (Host d)
  | AAAA =>
      match To16 (Addr d) with
      | Some ip => be16 16 ++ segments_wire ip
      | None => []
      end
  | UNKNOWN => []
  end.

(** All the bytes [DnsRecord.Write] leaves for a record. *)
Definition record_wire (d : DnsRecord) : list Z :=
  match Type_ d with
  | UNKNOWN => []
  | t => preamble_wire d t ++ rdata_wire d
  end.






(** An A record whose address has neither 4 nor 16 bytes. *)
Definition bad_a_record : DnsRecord := NewADnsRecord "host" [10; 0; 1] 60.

(** What a decoder may return: a value, or one of the two errors of the
    reading side; never a panic. *)
Definition decoder_outcome {X} (r : outcome X) : Prop :=
  match r with
  | Ok _ => True
  | Err e => e = EndOfBuffer \/ e = TooManyJumps
  | Panic => False
  end.

(** [decodes m]: on every well-formed buffer [m] returns (the fuel of the
    model is enough), with a value or a reading error, the bytes of the
    buffer unchanged and the cursor a 16-bit value. *)
Definition decodes {X} (m : MF X) : Prop :=
  forall b, buf_wf b ->
    exists r b', m b = Some (r, b') /\
                 decoder_outcome r /\ Buf b' = Buf b /\ is_uint16 (Pos b').

(** [reads m]: the same for a method without fuel. *)
Definition reads {X} (m : M X) : Prop :=
  forall b, buf_wf b ->
    decoder_outcome (fst (m b)) /\ Buf (snd (m b)) = Buf b
    /\ is_uint16 (Pos (snd (m b))).


(** The bytes [DnsQuestion.Write] emits for a question. *)
Definition question_wire (dq : DnsQuestion) : list Z :=
  qname_wire (Name dq) ++ be16 (uint16 (RecordType_int (qtype dq))) ++ be16 1.

(** The bytes [DnsPacket.Write] emits for a message: the header with the
    counts of the lists, the questions, then the records of the three
    sections. *)
Definition packet_wire (d : DnsPacket) : list Z :=
  header_written (Header (set_counts d))
  ++ concat (map question_wire (PQuestions d))
  ++ concat (map record_wire (PAnswers d))
  ++ concat (map record_wire (Authorities d))
  ++ concat (map record_wire (Resources d)).

(** A response to the query for google.com: one question, one A record
    whose name is a pointer to offset 12. *)
Definition google_response_buffer : BytePacketBuffer :=
  SetBuffer ([26; 10; 129; 128; 0; 1; 0; 1; 0; 0; 0; 0]
             ++ [6; 103; 111; 111; 103; 108; 101; 3; 99; 111; 109; 0; 0; 1; 0; 1]
             ++ [192; 12; 0; 1; 0; 1; 0; 0; 1; 44; 0; 4; 142; 250; 72; 14])
            NewBytePacketBuffer.

Definition google_response : DnsPacket :=
  mkPacket (mkHeader 6666 true false false 0 true NOERROR
                     false false false true 1 1 0 0)
           [NewDnsQuestion "google.com" A]
           [NewADnsRecord "google.com" (IPv4 142 250 72 14) 300] [] [].




(** A buffer whose last two bytes are the label "a" after its length, with
    the cursor on the length. *)
Definition last_byte_label_buffer : BytePacketBuffer :=
  mkBuffer (replicate 510 0 ++ [1; 97]) 510.

(** * Properties *)

(** ** Machine integers *)

Lemma uint16_small z : 0 <= z < 65536 -> uint16 z = z.
Proof. intros H. unfold uint16. now apply Z.mod_small. Qed.

Lemma uint8_small z : 0 <= z < 256 -> uint8 z = z.
Proof. intros H. unfold uint8. now apply Z.mod_small. Qed.

Lemma uint16_range z : is_uint16 (uint16 z).
Proof. unfold is_uint16, uint16. apply Z.mod_pos_bound. lia. Qed.

Lemma uint8_range z : is_byte (uint8 z).
Proof. unfold is_byte, uint8. apply Z.mod_pos_bound. lia. Qed.

(** A property checked on a whole range holds on the range. *)
Lemma all_from_spec (P : Z -> bool) (n : nat) : forall start,
  all_from P start n = true ->
  forall z, start <= z < start + Z.of_nat n -> P z = true.
Proof.
  induction n as [|n IH]; intros start Hall z Hz; [lia|].
  simpl in Hall. apply andb_prop in Hall as [Hs Hrest].
  destruct (Z.eq_dec z start) as [->|Hne]; [assumption|].
  apply (IH (start + 1)); [assumption|lia].
Qed.

(** [a << 8 | c] is [a * 256 + c] when [c] is a byte. *)
Lemma lor_shiftl8 a c : 0 <= a -> 0 <= c < 256 ->
  Z.lor (Z.shiftl a 8) c = a * 256 + c.
Proof.
  intros Ha Hc.
  rewrite Z.shiftl_mul_pow2 by lia. change (2 ^ 8) with 256.
  symmetry. apply Z.add_nocarry_lor.
  apply Z.bits_inj'. intros n Hn.
  rewrite Z.land_spec, Z.bits_0.
  destruct (Z.ltb_spec n 8).
  - change 256 with (2 ^ 8). rewrite Z.mul_pow2_bits_low by lia. reflexivity.
  - assert (Z.testbit c n = false) as ->; [|apply andb_false_r].
    destruct (Z.eq_dec c 0) as [->|Hne]; [apply Z.bits_0|].
    apply Z.bits_above_log2; [lia|].
    apply Z.log2_lt_pow2; [lia|].
    apply Z.lt_le_trans with (2 ^ 8); [simpl; lia|].
    apply Z.pow_le_mono_r; lia.
Qed.

(** The two bytes [Write2Byte] and [Set2Bytes] store for a 16-bit value are
    its big-endian digits. *)
Lemma big_endian_16 v : 0 <= v < 65536 ->
  Z.lor (uint16 (Z.shiftl (uint8 (Z.shiftr v 8)) 8)) (uint8 (Z.land v 255)) = v.
Proof.
  intros Hv.
  rewrite Z.shiftr_div_pow2 by lia. change (2 ^ 8) with 256.
  change 255 with (Z.ones 8). rewrite Z.land_ones by lia. change (2 ^ 8) with 256.
  assert (0 <= v / 256 < 256) by (split; [apply Z.div_pos; lia | apply Z.div_lt_upper_bound; lia]).
  assert (0 <= v mod 256 < 256) by (apply Z.mod_pos_bound; lia).
  rewrite (uint8_small (v / 256)) by assumption.
  rewrite (uint8_small (v mod 256)) by assumption.
  rewrite uint16_small.
  - rewrite lor_shiftl8 by lia. pose proof (Z.div_mod v 256). lia.
  - rewrite Z.shiftl_mul_pow2 by lia. change (2 ^ 8) with 256. lia.
Qed.

(** ** The cursor buffer: bounds *)

Lemma buf_wfb_correct b : buf_wfb b = true -> buf_wf b.
Proof.
  unfold buf_wfb, buf_wf, is_uint16. intros H.
  apply andb_prop in H as [H Hhi]. apply andb_prop in H as [H Hlo].
  apply andb_prop in H as [Hlen Hall].
  split; [now apply Nat.eqb_eq|]. split; [|lia].
  apply Forall_forall. intros z Hz.
  rewrite forallb_forall in Hall. apply list_elem_of_In in Hz.
  specialize (Hall z Hz). unfold is_byte. lia.
Qed.


Lemma Get_in_range b pos : pos <= 511 -> Get pos b = (Ok (byte_at b pos), b).
Proof.
  intros H. unfold Get. destruct (Z.leb_spec 512 pos); [lia|reflexivity].
Qed.

Lemma Get_out_of_range b pos : 512 <= pos -> Get pos b = (Err EndOfBuffer, b).
Proof.
  intros H. unfold Get. destruct (Z.leb_spec 512 pos); [reflexivity|lia].
Qed.

Lemma Read_in_range b : 0 <= Pos b <= 511 ->
  Read b = (Ok (byte_at b (Pos b)), mkBuffer (Buf b) (Pos b + 1)).
Proof.
  intros H. unfold Read. destruct (Z.leb_spec 512 (Pos b)); [lia|].
  rewrite uint16_small by lia. reflexivity.
Qed.

Lemma Read_out_of_range b : 512 <= Pos b -> Read b = (Err EndOfBuffer, b).
Proof.
  intros H. unfold Read. destruct (Z.leb_spec 512 (Pos b)); [reflexivity|lia].
Qed.

Lemma write_in_range b v : 0 <= Pos b <= 511 ->
  write v b = (Ok tt, mkBuffer (<[Z.to_nat (Pos b) := v]> (Buf b)) (Pos b + 1)).
Proof.
  intros H. unfold write. destruct (Z.leb_spec 512 (Pos b)); [lia|].
  rewrite uint16_small by lia. reflexivity.
Qed.

Lemma write_out_of_range b v : 512 <= Pos b -> write v b = (Err EndOfBuffer, b).
Proof.
  intros H. unfold write. destruct (Z.leb_spec 512 (Pos b)); [reflexivity|lia].
Qed.

(** Without wrap-around of [start+len], [GetRange] is as the bound says. *)
Lemma GetRange_in_range b start n :
  0 <= start -> 0 <= n -> start + n < 512 ->
  GetRange start n b = (Ok (slice b start n), b).
Proof.
  intros Hs Hn Hlt. unfold GetRange, slice.
  rewrite uint16_small by lia.
  destruct (Z.leb_spec 512 (start + n)); [lia|].
  destruct (Z.ltb_spec (start + n) start); [lia|].
  replace (start + n - start) with n by lia. reflexivity.
Qed.

Lemma GetRange_out_of_range b start n :
  512 <= start + n < 65536 -> GetRange start n b = (Err EndOfBuffer, b).
Proof.
  intros H. unfold GetRange. rewrite uint16_small by lia.
  destruct (Z.leb_spec 512 (start + n)); [reflexivity|lia].
Qed.

Lemma GetRange_510_3 b : GetRange 510 3 b = (Err EndOfBuffer, b).
Proof. apply GetRange_out_of_range. lia. Qed.

Lemma slice_length b start n :
  0 <= start -> 0 <= n -> start + n <= Z.of_nat (length (Buf b)) ->
  Z.of_nat (length (slice b start n)) = n.
Proof.
  intros Hs Hn Hle. unfold slice. rewrite length_take, length_drop. lia.
Qed.

(** C8 (defect): the bound of [GetRange] is tested on the 16-bit sum
    [start+len].  When the sum passes 65535 and wraps to a value below 512,
    the test lets the call through and the slice expression
    [b.Buf[start : start+len]] panics, its low bound above its high bound:
    [start+len] has reached 512 and the call does not fail with the
    end-of-buffer error. *)
Theorem GetRange_wrapped_sum_panics (b : BytePacketBuffer) (start n : Z) :
  is_uint16 start -> is_uint16 n ->
  65536 <= start + n < 65536 + 512 ->
  512 <= start + n /\ GetRange start n b = (Panic, b).
Proof.
  unfold is_uint16. intros Hs Hn Hsum. split; [lia|].
  unfold GetRange, uint16.
  replace ((start + n) mod 65536) with (start + n - 65536).
  2:{ apply Z.mod_unique with 1; lia. }
  destruct (Z.leb_spec 512 (start + n - 65536)); [lia|].
  destruct (Z.ltb_spec (start + n - 65536) start); [reflexivity|lia].
Qed.

(** [GetRange(65535, 1)] on a fresh buffer. *)
Lemma GetRange_wrapped_sum_panics_witness :
  512 <= 65535 + 1 /\
  GetRange 65535 1 NewBytePacketBuffer = (Panic, NewBytePacketBuffer).
Proof.
  apply (GetRange_wrapped_sum_panics NewBytePacketBuffer 65535 1);
    unfold is_uint16; lia.
Defined.

(** ** Records of unknown type *)

Lemma unknown_skip_all :
  all_from unknown_skip_check 0 (Z.to_nat 65536) = true.
Proof. vm_compute. reflexivity. Qed.

(** C10: [Seek] and [Step] never fail and check no bound.  [Seek] stores
    its argument in the cursor, [Step] adds its argument to the cursor
    modulo 2^16, neither touches the bytes; a step exists from every cursor
    to every 16-bit value, at or beyond 512 or back below it.  A cursor at
    or beyond 512 is reported by the next [Read], [Get] at the cursor or
    write, as the end-of-buffer error.  [ReadDnsRecord] places the cursor
    that way: for every 16-bit data length of a record of unknown type it
    succeeds and leaves the cursor at the end of the fixed fields plus the
    data length, modulo 2^16. *)
Theorem Seek_Step_unchecked :
  (forall b pos, Seek pos b = (Ok tt, mkBuffer (Buf b) pos)) /\
  (forall b n, Step n b = (Ok tt, mkBuffer (Buf b) ((Pos b + n) mod 65536))) /\
  (forall b c, is_uint16 (Pos b) -> is_uint16 c ->
     exists n, is_uint16 n /\ Step n b = (Ok tt, mkBuffer (Buf b) c)) /\
  (forall b, 512 <= Pos b ->
     Read b = (Err EndOfBuffer, b) /\
     Get (Pos b) b = (Err EndOfBuffer, b) /\
     forall v, write v b = (Err EndOfBuffer, b)) /\
  (forall dataLen, is_uint16 dataLen ->
     exists r b',
       ReadDnsRecord (unknown_record_buffer dataLen) = Some (Ok r, b') /\
       Type_ r = UNKNOWN /\ DataLen r = dataLen /\
       Pos b' = (11 + dataLen) mod 65536).
Proof.
  split; [reflexivity|]. split; [reflexivity|]. split; [|split].
  - intros b c Hp Hc. exists ((c - Pos b) mod 65536). split.
    + apply uint16_range.
    + unfold Step, uint16. f_equal. f_equal.
      rewrite Zplus_mod_idemp_r.
      replace (Pos b + (c - Pos b)) with c by lia.
      apply Z.mod_small. exact Hc.
  - intros b Hb. split; [|split].
    + now apply Read_out_of_range.
    + now apply Get_out_of_range.
    + intros v. now apply write_out_of_range.
  - intros dataLen Hd.
    pose proof (all_from_spec unknown_skip_check _ 0 unknown_skip_all dataLen) as Hc.
    unfold is_uint16 in Hd. specialize (Hc ltac:(lia)).
    unfold unknown_skip_check in Hc.
    destruct (ReadDnsRecord (unknown_record_buffer dataLen))
      as [[[r| |] b']|]; try discriminate.
    exists r, b'. split; [reflexivity|].
    repeat (apply andb_prop in Hc as [Hc ?]).
    repeat split.
    + destruct (Type_ r); try discriminate; reflexivity.
    + lia.
    + unfold uint16 in *. lia.
Qed.

(** A step from 100 to 99, a read at 600, and the skip of 600 bytes. *)
Lemma Seek_Step_unchecked_witness :
  (exists n, is_uint16 n /\
     Step n (mkBuffer (Buf NewBytePacketBuffer) 100)
     = (Ok tt, mkBuffer (Buf NewBytePacketBuffer) 99)) /\
  Read (mkBuffer (Buf NewBytePacketBuffer) 600)
  = (Err EndOfBuffer, mkBuffer (Buf NewBytePacketBuffer) 600) /\
  (exists r b',
     ReadDnsRecord (unknown_record_buffer 600) = Some (Ok r, b') /\
     Type_ r = UNKNOWN /\ DataLen r = 600 /\ Pos b' = (11 + 600) mod 65536).
Proof.
  destruct Seek_Step_unchecked as (_ & _ & Hany & Hout & Hskip).
  split; [|split].
  - apply (Hany (mkBuffer (Buf NewBytePacketBuffer) 100) 99);
      unfold is_uint16; simpl; lia.
  - apply (Hout (mkBuffer (Buf NewBytePacketBuffer) 600)). simpl. lia.
  - apply (Hskip 600). unfold is_uint16. lia.
Defined.

(** C7 (amended): on a record of unknown type [DnsRecord.Write] writes no
    byte at all, neither the name, type, class and TTL nor a body: the
    buffer and its cursor are left as they were and the count returned
    is 0. *)
Theorem DnsRecord_Write_unknown_writes_nothing
    (domain host : string) (qt dataLen ttl priority : Z) (addr : IP)
    (b : BytePacketBuffer) :
  DnsRecord_Write (mkRecord UNKNOWN domain qt dataLen ttl addr host priority) b
  = (Ok 0, b).
Proof.
  unfold DnsRecord_Write, DnsRecord_Write_body, bind, get_Pos, ret. simpl.
  rewrite Z.sub_diag. reflexivity.
Qed.

(** C7 (as stated, refuted): for the unknown record named "a" the count
    returned is not the size of the name, type, class and TTL fields, which
    take 11 bytes when they are written. *)
Lemma unknown_count_is_not_the_fields_size :
  let d := NewUnknownDnsRecord "a" 99 3 300 in
  Pos (snd (write_preamble d UNKNOWN NewBytePacketBuffer)) = 11 /\
  fst (DnsRecord_Write d NewBytePacketBuffer)
  <> Ok (Pos (snd (write_preamble d UNKNOWN NewBytePacketBuffer))
         - Pos NewBytePacketBuffer).
Proof.
  split; [vm_compute; reflexivity|].
  vm_compute. discriminate.
Qed.


(** ** What the writers emit *)

Lemma splice_length B p w :
  (p + length w <= length B)%nat -> length (splice B p w) = length B.
Proof.
  intros H. unfold splice.
  rewrite !length_app, length_take, length_drop. lia.
Qed.

Lemma splice_nil B p : splice B p [] = B.
Proof.
  unfold splice. simpl. rewrite Nat.add_0_r. apply take_drop.
Qed.

Lemma splice_insert B p v :
  (p < length B)%nat -> <[p:=v]> B = splice B p [v].
Proof.
  intros H. unfold splice. simpl.
  rewrite Nat.add_1_r. now apply insert_take_drop.
Qed.

Lemma splice_app B p w1 w2 :
  (p + length w1 + length w2 <= length B)%nat ->
  splice (splice B p w1) (p + length w1) w2 = splice B p (w1 ++ w2).
Proof.
  intros H. unfold splice.
  assert (length (take p B) = p) as Hp by (rewrite length_take; lia).
  rewrite (app_assoc (take p B) w1).
  rewrite take_app_length' by (rewrite length_app; lia).
  rewrite drop_app_ge by (rewrite length_app; lia).
  rewrite !length_app, Hp.
  replace (p + length w1 + length w2 - (p + length w1))%nat with (length w2) by lia.
  rewrite drop_drop.
  rewrite <- !app_assoc.
  replace (p + (length w1 + length w2))%nat
    with (p + length w1 + length w2)%nat by lia.
  reflexivity.
Qed.

(** The bytes stored by a writer can be read back where they were put. *)
Lemma splice_slice B p w :
  (p + length w <= length B)%nat ->
  take (length w) (drop p (splice B p w)) = w.
Proof.
  intros H. unfold splice.
  rewrite drop_app_length' by (rewrite length_take; lia).
  apply take_app_length.
Qed.

Lemma bind_Ok_inv {X Y} (m : M X) (k : X -> M Y) b y b' :
  bind m k b = (Ok y, b') ->
  exists x b1, m b = (Ok x, b1) /\ k x b1 = (Ok y, b').
Proof.
  unfold bind. destruct (m b) as [[x|e|] b1]; intros H; try discriminate.
  exists x, b1. split; [reflexivity|assumption].
Qed.

Lemma emits_ret : emits (ret tt) [].
Proof.
  intros b b' Hp Hl H. inversion H; subst b'.
  rewrite splice_nil. simpl. split; [reflexivity|lia].
Qed.

Lemma emits_write v : emits (write v) [v].
Proof.
  intros b b' Hp Hl H. unfold write in H.
  destruct (Z.leb_spec 512 (Pos b)) as [Hge|Hlt]; [discriminate|].
  inversion H; subst b'; clear H. simpl.
  rewrite uint16_small by lia.
  split; [|lia].
  apply splice_insert. lia.
Qed.

Lemma emits_bind m1 m2 w1 w2 :
  emits m1 w1 -> emits m2 w2 -> emits (m1 ;;; m2) (w1 ++ w2).
Proof.
  intros H1 H2 b b' Hp Hl H.
  apply bind_Ok_inv in H as ([] & b1 & Hm1 & Hm2).
  destruct (H1 b b1 Hp Hl Hm1) as (HB1 & HP1 & Hle1).
  assert (length (Buf b1) = 512%nat) as Hl1.
  { rewrite HB1, splice_length; lia. }
  destruct (H2 b1 b' ltac:(lia) Hl1 Hm2) as (HB2 & HP2 & Hle2).
  split; [|rewrite length_app; lia].
  rewrite HB2, HB1, HP1.
  replace (Z.to_nat (Pos b + Z.of_nat (length w1)))
    with (Z.to_nat (Pos b) + length w1)%nat by lia.
  apply splice_app. lia.
Qed.

Lemma emits_Write2Byte v : emits (Write2Byte v) (be16 v).
Proof.
  unfold Write2Byte, be16.
  apply (emits_bind _ _ [_] [_]); apply emits_write.
Qed.

Lemma emits_Write4Byte v : emits (Write4Byte v) (be32 v).
Proof.
  unfold Write4Byte, be32.
  apply (emits_bind _ _ [_] [_; _; _]); [apply emits_write|].
  apply (emits_bind _ _ [_] [_; _]); [apply emits_write|].
  apply (emits_bind _ _ [_] [_]); apply emits_write.
Qed.

Lemma emits_write_bytes l : emits (write_bytes l) l.
Proof.
  induction l as [|v l IH]; simpl.
  - apply emits_ret.
  - apply (emits_bind _ _ [v] l); [apply emits_write|exact IH].
Qed.

Lemma emits_WriteQName_label label : emits (WriteQName_label label) (label_wire label).
Proof.
  unfold WriteQName_label, label_wire.
  destruct (63 <? strlen label).
  - intros b b' _ _ H. discriminate H.
  - apply (emits_bind _ _ [_] (_ ++ [0])); [apply emits_write|].
    apply emits_bind; [apply emits_write_bytes|apply emits_write].
Qed.

Lemma emits_WriteQName_labels labels :
  emits (WriteQName_labels labels) (concat (map label_wire labels)).
Proof.
  induction labels as [|l labels IH].
  - apply emits_ret.
  - change (emits (WriteQName_label l ;;; WriteQName_labels labels)
                  (label_wire l ++ concat (map label_wire labels))).
    apply emits_bind; [apply emits_WriteQName_label|exact IH].
Qed.

(** On success [WriteQName] has emitted [qname_wire]: for each label its
    length, its bytes and a zero byte. *)
Lemma emits_WriteQName qname : emits (WriteQName qname) (qname_wire qname).
Proof. apply emits_WriteQName_labels. Qed.

Lemma emits_write_preamble d t : emits (write_preamble d t) (preamble_wire d t).
Proof.
  unfold write_preamble, preamble_wire.
  apply emits_bind; [apply emits_WriteQName|].
  apply emits_bind; [apply emits_Write2Byte|].
  apply emits_bind; [apply emits_Write2Byte|apply emits_Write4Byte].
Qed.

Lemma Split_dot_nonempty s : Split_dot s <> [].
Proof.
  destruct s as [|c s]; simpl; [discriminate|].
  destruct (Ascii.eqb c "."); [discriminate|].
  destruct (Split_dot s); discriminate.
Qed.

(** [WriteQName] writes one byte at least: it fails on a full buffer. *)
Lemma WriteQName_needs_room qname b b' :
  WriteQName qname b = (Ok tt, b') -> Pos b < 512.
Proof.
  unfold WriteQName.
  destruct (Split_dot qname) as [|l ls] eqn:E;
    [now apply Split_dot_nonempty in E|].
  intros H. simpl in H.
  apply bind_Ok_inv in H as ([] & b1 & H1 & _).
  unfold WriteQName_label in H1.
  destruct (63 <? strlen l); [discriminate|].
  apply bind_Ok_inv in H1 as ([] & b2 & H1 & _).
  unfold Write1Byte, write in H1.
  destruct (Z.leb_spec 512 (Pos b)); [discriminate|lia].
Qed.

(** ** The length field of NS and CNAME records *)

Lemma Set2Bytes_in_range b pos v :
  0 <= pos <= 510 ->
  Set2Bytes pos v b
  = (Ok tt, mkBuffer (<[Z.to_nat (pos + 1) := uint8 (Z.land v 255)]>
                        (<[Z.to_nat pos := uint8 (Z.shiftr v 8)]> (Buf b)))
                     (Pos b)).
Proof.
  intros H. unfold Set2Bytes, bind, Set_.
  destruct (Z.leb_spec 512 pos); [lia|].
  rewrite uint16_small by lia. simpl.
  destruct (Z.leb_spec 512 (pos + 1)); [lia|]. reflexivity.
Qed.

(** [Read2Bytes] at a patched position returns the patched value. *)
Lemma Read2Bytes_patched B pos v :
  length B = 512%nat -> 0 <= pos <= 510 -> 0 <= v < 65536 ->
  fst (Read2Bytes
         (mkBuffer (<[Z.to_nat (pos + 1) := uint8 (Z.land v 255)]>
                      (<[Z.to_nat pos := uint8 (Z.shiftr v 8)]> B)) pos))
  = Ok v.
Proof.
  intros Hl Hp Hv. unfold Read2Bytes, bind.
  rewrite Read_in_range by (simpl; lia). simpl.
  rewrite Read_in_range by (simpl; lia). simpl.
  unfold ret, byte_at. simpl.
  rewrite list_lookup_insert_ne by lia.
  rewrite list_lookup_insert_eq by lia.
  rewrite list_lookup_insert_eq by (rewrite length_insert; lia).
  simpl. f_equal. now apply big_endian_16.
Qed.

(** C9: when [DnsRecord.Write] succeeds on an NS or a CNAME record, the
    two bytes at the position of the placeholder, the one the cursor had
    after the name, type, class and TTL, hold in big-endian order the number
    of bytes [WriteQName] emitted for the target host: the distance the
    cursor moved while the host was written, which is the size of the wire
    form of that host (for each label its length byte, its bytes and the
    terminator the method writes) and whose bytes follow the field. *)
Theorem NS_CNAME_length_is_backpatched
    (d : DnsRecord) (b b' : BytePacketBuffer) (n : Z) :
  buf_wf b ->
  Type_ d = NS \/ Type_ d = CNAME ->
  DnsRecord_Write d b = (Ok n, b') ->
  exists b1 b2 b3,
    write_preamble d (Type_ d) b = (Ok tt, b1) /\
    Write2Byte 0 b1 = (Ok tt, b2) /\
    WriteQName (Host d) b2 = (Ok tt, b3) /\
    fst (Read2Bytes (mkBuffer (Buf b') (Pos b1))) = Ok (Pos b3 - Pos b2) /\
    Pos b3 - Pos b2 = Z.of_nat (length (qname_wire (Host d))) /\
    slice b' (Pos b2) (Pos b3 - Pos b2) = qname_wire (Host d).
Proof.
  intros (Hlen & _ & Hpos) Hty Hw.
  unfold is_uint16 in Hpos.
  assert (exists b1 b2 b3,
            write_preamble d (Type_ d) b = (Ok tt, b1) /\
            Write2Byte 0 b1 = (Ok tt, b2) /\
            WriteQName (Host d) b2 = (Ok tt, b3) /\
            backpatch (Pos b1) b3 = (Ok tt, b')) as (b1 & b2 & b3 & H0 & H1 & H2 & H3).
  { unfold DnsRecord_Write, DnsRecord_Write_body in Hw.
    apply bind_Ok_inv in Hw as (startPos & b0 & Hs & Hw).
    inversion Hs; subst startPos b0; clear Hs.
    apply bind_Ok_inv in Hw as ([] & b4 & Hw & Hr).
    apply bind_Ok_inv in Hr as (p & b5 & Hg & Hr).
    inversion Hg; subst p b5; clear Hg. inversion Hr; subst; clear Hr.
    destruct Hty as [Hty|Hty]; rewrite Hty in Hw |- *;
      apply bind_Ok_inv in Hw as ([] & b1 & H0 & Hw);
      apply bind_Ok_inv in Hw as (pos & b1' & Hg & Hw);
      inversion Hg; subst pos b1'; clear Hg;
      apply bind_Ok_inv in Hw as ([] & b2 & H1 & Hw);
      apply bind_Ok_inv in Hw as ([] & b3 & H2 & H3);
      exists b1, b2, b3; auto. }
  exists b1, b2, b3. do 3 (split; [assumption|]).
  assert (Pos b < 512) as Hle.
  { unfold write_preamble in H0.
    apply bind_Ok_inv in H0 as ([] & b0 & H0 & _).
    now apply WriteQName_needs_room in H0. }
  destruct (emits_write_preamble d (Type_ d) b b1 ltac:(lia) Hlen H0)
    as (HB1 & HP1 & Hle1).
  assert (length (Buf b1) = 512%nat) as Hl1
      by (rewrite HB1, splice_length; lia).
  destruct (emits_Write2Byte 0 b1 b2 ltac:(lia) Hl1 H1) as (HB2 & HP2 & Hle2).
  assert (length (Buf b2) = 512%nat) as Hl2
      by (rewrite HB2, splice_length; simpl in *; lia).
  simpl in HP2.
  destruct (emits_WriteQName (Host d) b2 b3 ltac:(lia) Hl2 H2) as (HB3 & HP3 & Hle3).
  assert (length (Buf b3) = 512%nat) as Hl3
      by (rewrite HB3, splice_length; lia).
  unfold backpatch in H3.
  rewrite Set2Bytes_in_range in H3 by lia.
  inversion H3; subst b'; clear H3. simpl.
  rewrite (uint16_small (Pos b1 + 2)) by lia.
  rewrite (uint16_small (Pos b3 - (Pos b1 + 2))) by lia.
  replace (Pos b1 + 2) with (Pos b2) by lia.
  split; [|split].
  - apply Read2Bytes_patched; [assumption|lia|lia].
  - lia.
  - unfold slice. simpl.
    rewrite !drop_insert_lt by lia.
    replace (Z.to_nat (Pos b3 - Pos b2)) with (length (qname_wire (Host d))) by lia.
    rewrite HB3. apply splice_slice. lia.
Qed.

(** The NS record of example.com written into a fresh buffer. *)
Lemma NS_CNAME_length_is_backpatched_witness :
  exists b1 b2 b3,
    write_preamble ns1_record (Type_ ns1_record) NewBytePacketBuffer = (Ok tt, b1) /\
    Write2Byte 0 b1 = (Ok tt, b2) /\
    WriteQName (Host ns1_record) b2 = (Ok tt, b3) /\
    fst (Read2Bytes (mkBuffer (Buf ns1_written) (Pos b1))) = Ok (Pos b3 - Pos b2) /\
    Pos b3 - Pos b2 = Z.of_nat (length (qname_wire (Host ns1_record))) /\
    slice ns1_written (Pos b2) (Pos b3 - Pos b2) = qname_wire (Host ns1_record).
Proof.
  apply (NS_CNAME_length_is_backpatched ns1_record NewBytePacketBuffer ns1_written 43).
  - apply buf_wfb_correct. vm_compute. reflexivity.
  - left. reflexivity.
  - vm_compute. reflexivity.
Defined.

(** ** Decoding names *)

Lemma byte_at_is_byte b pos : Forall is_byte (Buf b) -> is_byte (byte_at b pos).
Proof.
  intros H. unfold byte_at.
  destruct (Buf b !! Z.to_nat pos) as [z|] eqn:E; simpl.
  - rewrite Forall_lookup in H. exact (H _ _ E).
  - unfold is_byte. lia.
Qed.

Lemma byte_at_same_Buf b c pos : Buf c = Buf b -> byte_at c pos = byte_at b pos.
Proof. intros H. unfold byte_at. now rewrite H. Qed.

Lemma slice_same_Buf b c start n : Buf c = Buf b -> slice c start n = slice b start n.
Proof. intros H. unfold slice. now rewrite H. Qed.

(** The pointer test and the offset of the source on bytes: with the two
    top bits set, [lenByte ^ 0xC0] is the low six bits. *)
Lemma pointer_bits_all :
  all_from (fun h => if Z.land h 192 =? 192
                     then (Z.lxor h 192 =? Z.land h 63) && (Z.land h 63 <? 64)
                          && (0 <=? Z.land h 63)
                     else true) 0 256 = true.
Proof. vm_compute. reflexivity. Qed.

Lemma pointer_offset_code h l :
  is_byte h -> is_byte l -> Z.land h 192 = 192 ->
  Z.lor (uint16 (Z.shiftl (Z.lxor h 192) 8)) l = pointer_offset h l /\
  0 <= pointer_offset h l < 16384.
Proof.
  unfold is_byte. intros Hh Hl Hp.
  pose proof (all_from_spec _ _ 0 pointer_bits_all h ltac:(lia)) as Hc.
  simpl in Hc. rewrite Hp in Hc. simpl in Hc.
  apply andb_prop in Hc as [Hc H0]. apply andb_prop in Hc as [Hx H64].
  apply Z.eqb_eq in Hx. apply Z.ltb_lt in H64. apply Z.leb_le in H0.
  rewrite Hx. unfold pointer_offset.
  rewrite uint16_small.
  - rewrite lor_shiftl8 by lia. lia.
  - rewrite Z.shiftl_mul_pow2 by lia. change (2 ^ 8) with 256. lia.
Qed.

Lemma ReadQName_loop_S fuel pos jumped jumps delim sb b :
  ReadQName_loop (S fuel) pos jumped jumps delim sb b =
  if maxJums <? jumps then Some (Err TooManyJumps, b)
  else
    match Get pos b with
    | (Ok lenByte, b1) =>
        if Z.land lenByte 192 =? 192 then
          match (if jumped then ret tt else Seek (uint16 (pos + 2))) b1 with
          | (Ok _, b2) =>
              match Get (uint16 (pos + 1)) b2 with
              | (Ok b2byte, b3) =>
                  ReadQName_loop fuel
                    (Z.lor (uint16 (Z.shiftl (Z.lxor lenByte 192) 8)) b2byte)
                    true (jumps + 1) delim sb b3
              | (Err e, b3) => Some (Err e, b3)
              | (Panic, b3) => Some (Panic, b3)
              end
          | (Err e, b2) => Some (Err e, b2)
          | (Panic, b2) => Some (Panic, b2)
          end
        else
          if lenByte =? 0 then Some (Ok (uint16 (pos + 1), jumped, sb), b1)
          else
            match GetRange (uint16 (pos + 1)) lenByte b1 with
            | (Ok bs, b2) =>
                ReadQName_loop fuel (uint16 (uint16 (pos + 1) + lenByte)) jumped jumps
                  "." ((sb ++ delim) ++ ToLower (string_of_bytes bs))%string b2
            | (Err e, b2) => Some (Err e, b2)
            | (Panic, b2) => Some (Panic, b2)
            end
    | (Err e, b1) => Some (Err e, b1)
    | (Panic, b1) => Some (Panic, b1)
    end.
Proof. reflexivity. Qed.

(** The three passes of the loop. *)
Lemma loop_pass_end fuel pos jumped jumps delim sb b :
  0 <= pos < 512 -> byte_at b pos = 0 -> jumps <= 5 ->
  ReadQName_loop (S fuel) pos jumped jumps delim sb b
  = Some (Ok (pos + 1, jumped, sb), b).
Proof.
  intros Hp H0 Hj. rewrite ReadQName_loop_S.
  unfold maxJums. destruct (Z.ltb_spec 5 jumps); [lia|].
  rewrite Get_in_range by lia. rewrite H0. simpl.
  rewrite uint16_small by lia. reflexivity.
Qed.

Lemma loop_pass_label fuel pos jumped jumps delim sb b n :
  0 <= pos < 512 -> byte_at b pos = n -> 0 <= n -> n <> 0 ->
  Z.land n 192 <> 192 -> pos + 1 + n < 512 -> jumps <= 5 ->
  ReadQName_loop (S fuel) pos jumped jumps delim sb b
  = ReadQName_loop fuel (pos + 1 + n) jumped jumps "."
      ((sb ++ delim) ++ ToLower (string_of_bytes (slice b (pos + 1) n)))%string b.
Proof.
  intros Hp Hn H0 Hne Hnp Hlt Hj. rewrite ReadQName_loop_S.
  unfold maxJums. destruct (Z.ltb_spec 5 jumps); [lia|].
  rewrite Get_in_range by lia. rewrite Hn.
  destruct (Z.eqb_spec (Z.land n 192) 192); [contradiction|].
  destruct (Z.eqb_spec n 0); [contradiction|].
  rewrite (uint16_small (pos + 1)) by lia.
  rewrite GetRange_in_range by lia.
  rewrite uint16_small by lia. reflexivity.
Qed.

Lemma loop_pass_pointer fuel pos jumped jumps delim sb b :
  Forall is_byte (Buf b) ->
  0 <= pos -> pos + 1 < 512 -> Z.land (byte_at b pos) 192 = 192 -> jumps <= 5 ->
  ReadQName_loop (S fuel) pos jumped jumps delim sb b
  = ReadQName_loop fuel (pointer_offset (byte_at b pos) (byte_at b (pos + 1)))
      true (jumps + 1) delim sb
      (if jumped then b else mkBuffer (Buf b) (pos + 2)).
Proof.
  intros Hwf Hp Hp1 Hptr Hj. rewrite ReadQName_loop_S.
  unfold maxJums. destruct (Z.ltb_spec 5 jumps); [lia|].
  rewrite Get_in_range by lia. rewrite Hptr. simpl.
  rewrite !uint16_small by lia.
  destruct (pointer_offset_code (byte_at b pos) (byte_at b (pos + 1)))
    as [Hoff _]; try apply byte_at_is_byte; try assumption.
  destruct jumped; simpl.
  - unfold ret. rewrite Get_in_range by lia. rewrite Hoff. reflexivity.
  - unfold Seek. rewrite Get_in_range by lia.
    rewrite !(byte_at_same_Buf b (mkBuffer (Buf b) (pos + 2))) by reflexivity.
    rewrite Hoff. reflexivity.
Qed.

(** More fuel does not change a result. *)
Lemma ReadQName_loop_mono fuel : forall fuel' pos jumped jumps delim sb b r,
  ReadQName_loop fuel pos jumped jumps delim sb b = Some r ->
  (fuel <= fuel')%nat ->
  ReadQName_loop fuel' pos jumped jumps delim sb b = Some r.
Proof.
  induction fuel as [|fuel IH]; intros fuel' pos jumped jumps delim sb b r H Hle;
    [discriminate|].
  destruct fuel' as [|fuel']; [lia|].
  rewrite ReadQName_loop_S in *.
  destruct (maxJums <? jumps); [assumption|].
  destruct (Get pos b) as [[lenByte|e|] b1]; try assumption.
  destruct (Z.land lenByte 192 =? 192).
  - destruct ((if jumped then ret tt else Seek (uint16 (pos + 2))) b1)
      as [[[]|e|] b2]; try assumption.
    destruct (Get (uint16 (pos + 1)) b2) as [[b2byte|e|] b3]; try assumption.
    apply IH; [assumption|lia].
  - destruct (lenByte =? 0); [assumption|].
    destruct (GetRange (uint16 (pos + 1)) lenByte b1) as [[bs|e|] b2];
      try assumption.
    apply IH; [assumption|lia].
Qed.

(** The loop ends: fuel above [passes_left] is never used up. *)
Lemma ReadQName_loop_total fuel : forall pos jumped jumps delim sb b,
  Forall is_byte (Buf b) -> 0 <= pos -> 0 <= jumps ->
  passes_left jumps pos < Z.of_nat fuel ->
  exists r, ReadQName_loop fuel pos jumped jumps delim sb b = Some r.
Proof.
  induction fuel as [|fuel IH]; intros pos jumped jumps delim sb b Hwf Hp Hj Hfuel.
  { unfold passes_left in Hfuel. lia. }
  rewrite ReadQName_loop_S. unfold maxJums.
  destruct (Z.ltb_spec 5 jumps) as [|Hj5]; [eauto|].
  unfold Get at 1.
  destruct (Z.leb_spec 512 pos) as [|Hp512]; [eauto|].
  pose proof (byte_at_is_byte b pos Hwf) as Hlen. unfold is_byte in Hlen.
  destruct (Z.eqb_spec (Z.land (byte_at b pos) 192) 192) as [Hptr|Hnptr].
  - assert (Forall is_byte
              (Buf ((if jumped then ret tt else Seek (uint16 (pos + 2))) b).2)
            /\ exists b2, (if jumped then ret tt else Seek (uint16 (pos + 2))) b
                          = (Ok tt, b2)) as [Hwf2 [b2 E2]].
    { destruct jumped; simpl; eauto. }
    rewrite E2 in *. simpl in Hwf2.
    unfold Get.
    destruct (Z.leb_spec 512 (uint16 (pos + 1))); [eauto|].
    set (offset := Z.lor _ _).
    assert (0 <= offset) as Hoff.
    { pose proof (byte_at_is_byte b2 (uint16 (pos + 1)) Hwf2) as Hb.
      unfold is_byte in Hb. apply Z.lor_nonneg. split; [apply uint16_range|lia]. }
    apply IH; try assumption; try lia.
    unfold passes_left in *. lia.
  - destruct (Z.eqb_spec (byte_at b pos) 0); [eauto|].
    rewrite (uint16_small (pos + 1)) by lia.
    unfold GetRange.
    rewrite (uint16_small (pos + 1 + byte_at b pos)) by lia.
    destruct (Z.leb_spec 512 (pos + 1 + byte_at b pos)); [eauto|].
    destruct (Z.ltb_spec (pos + 1 + byte_at b pos) (pos + 1)); [eauto|].
    apply IH; try assumption; try lia.
    unfold passes_left in *. lia.
Qed.

Lemma passes_left_initial pos jumps :
  0 <= pos -> 0 <= jumps -> passes_left jumps pos < Z.of_nat ReadQName_fuel.
Proof.
  intros Hp Hj. change (Z.of_nat ReadQName_fuel) with 4096.
  unfold passes_left. lia.
Qed.

(** A result reached with some fuel is the result with [ReadQName_fuel]. *)
Lemma ReadQName_loop_fuel_enough fuel pos jumped jumps delim sb b r :
  Forall is_byte (Buf b) -> 0 <= pos -> 0 <= jumps ->
  ReadQName_loop fuel pos jumped jumps delim sb b = Some r ->
  ReadQName_loop ReadQName_fuel pos jumped jumps delim sb b = Some r.
Proof.
  intros Hwf Hp Hj H.
  destruct (ReadQName_loop_total ReadQName_fuel pos jumped jumps delim sb b
              Hwf Hp Hj (passes_left_initial pos jumps Hp Hj)) as [r' H'].
  pose proof (ReadQName_loop_mono _ (Nat.max fuel ReadQName_fuel) _ _ _ _ _ _ _ H
                ltac:(lia)) as H1.
  pose proof (ReadQName_loop_mono _ (Nat.max fuel ReadQName_fuel) _ _ _ _ _ _ _ H'
                ltac:(lia)) as H2.
  rewrite H1 in H2. rewrite H'. symmetry. exact H2.
Qed.

(** With fuel for the loop, [ReadQName] has a result, and more fuel gives
    the same one. *)
Lemma ReadQName_with_total fuel b r :
  ReadQName_loop fuel (Pos b) false 0 "" "" b = Some r ->
  exists r', ReadQName_with fuel b = Some r'.
Proof.
  intros H. unfold ReadQName_with. rewrite H.
  destruct r as [[[[endpos jumped] sb]|e|] c]; eauto.
  destruct jumped; simpl; eauto.
Qed.

Lemma ReadQName_with_mono fuel fuel' b r :
  ReadQName_loop fuel (Pos b) false 0 "" "" b = Some r ->
  (fuel <= fuel')%nat ->
  ReadQName_with fuel' b = ReadQName_with fuel b.
Proof.
  intros H Hle. unfold ReadQName_with.
  rewrite (ReadQName_loop_mono fuel fuel' _ _ _ _ _ _ _ H Hle), H. reflexivity.
Qed.

Lemma name_at_in_range b pos k labels cur :
  name_at b pos k labels cur -> 0 <= pos < 512.
Proof. destruct 1; lia. Qed.

Lemma loop_resolves b pos k labels cur :
  name_at b pos k labels cur -> Forall is_byte (Buf b) ->
  forall c jumped jumps delim sb,
    Buf c = Buf b -> 0 <= jumps -> jumps + Z.of_nat k <= 5 ->
    exists fuel endpos c',
      ReadQName_loop fuel pos jumped jumps delim sb c
      = Some (Ok (endpos, jumped || (0 <? k)%nat, append_labels delim sb labels), c')
      /\ Buf c' = Buf b
      /\ (if jumped then Pos c' = Pos c
          else if (0 <? k)%nat then Pos c' = cur
               else Pos c' = Pos c /\ endpos = cur).
Proof.
  induction 1 as [pos Hp H0
                 |pos n k labels cur Hp Hn Hn0 Hnp Hrest IH
                 |pos k labels cur Hp Hp1 Hptr Hrest IH];
    intros Hwf c jumped jumps delim sb HB Hj Hk.
  - exists 1%nat, (pos + 1), c.
    rewrite loop_pass_end; [|lia|now rewrite (byte_at_same_Buf b)|lia].
    rewrite orb_false_r. simpl. split; [reflexivity|]. split; [assumption|].
    destruct jumped; auto.
  - pose proof (name_at_in_range _ _ _ _ _ Hrest) as Hnext.
    pose proof (byte_at_is_byte b pos Hwf) as Hbyte. unfold is_byte in Hbyte.
    destruct (IH Hwf c jumped jumps "."%string
                ((sb ++ delim) ++ ToLower (string_of_bytes (slice b (pos + 1) n)))%string
                HB Hj Hk) as (fuel & endpos & c' & E & HB' & HP).
    exists (S fuel), endpos, c'.
    rewrite (loop_pass_label fuel pos jumped jumps delim sb c n);
      try lia; [|now rewrite (byte_at_same_Buf b)].
    rewrite (slice_same_Buf b c) by assumption.
    simpl. auto.
  - destruct (IH Hwf (if jumped then c else mkBuffer (Buf c) (pos + 2))
                true (jumps + 1) delim sb) as (fuel & endpos & c' & E & HB' & HP).
    { destruct jumped; simpl; assumption. }
    { lia. }
    { lia. }
    exists (S fuel), endpos, c'.
    rewrite loop_pass_pointer; try lia;
      [|now rewrite HB|now rewrite (byte_at_same_Buf b)].
    rewrite !(byte_at_same_Buf b c) by assumption.
    simpl in E. rewrite orb_true_r. split; [exact E|]. split; [assumption|].
    simpl. destruct jumped; simpl in HP; assumption.
Qed.

(** A name that resolves through at most 5 pointers is decoded, and the
    cursor is left after the name. *)
Lemma ReadQName_resolves b k labels cur :
  buf_wf b -> name_at b (Pos b) k labels cur -> (k <= 5)%nat ->
  ReadQName b = Some (Ok (join_dot labels), mkBuffer (Buf b) cur).
Proof.
  intros (Hlen & Hbytes & Hpos) Hname Hk. unfold is_uint16 in Hpos.
  destruct (loop_resolves b (Pos b) k labels cur Hname Hbytes b false 0 "" ""
              eq_refl ltac:(lia) ltac:(lia)) as (fuel & endpos & c' & E & HB & HP).
  apply ReadQName_loop_fuel_enough in E; [|assumption|lia|lia].
  unfold ReadQName, ReadQName_with. rewrite E. clear E.
  destruct c' as [B' P']. simpl in HB, HP. subst B'.
  change (false || (0 <? k)%nat) with (0 <? k)%nat.
  destruct (0 <? k)%nat.
  - now subst P'.
  - destruct HP as [_ ->]. reflexivity.
Qed.

Lemma loop_too_many b pos k :
  jumps_from b pos k -> Forall is_byte (Buf b) ->
  forall c jumped jumps delim sb,
    Buf c = Buf b -> 0 <= jumps -> 5 < jumps + Z.of_nat k ->
    exists fuel c',
      ReadQName_loop fuel pos jumped jumps delim sb c = Some (Err TooManyJumps, c').
Proof.
  assert (forall pos jumped jumps delim sb c, 5 < jumps ->
            ReadQName_loop 1 pos jumped jumps delim sb c = Some (Err TooManyJumps, c))
    as Hguard.
  { intros. rewrite ReadQName_loop_S. unfold maxJums.
    destruct (Z.ltb_spec 5 jumps); [reflexivity|lia]. }
  induction 1 as [pos
                 |pos n k Hp Hn Hn0 Hnp Hlt Hrest IH
                 |pos k Hp Hp1 Hptr Hrest IH];
    intros Hwf c jumped jumps delim sb HB Hj Hk.
  - exists 1%nat, c. apply Hguard. lia.
  - destruct (Z.ltb_spec 5 jumps) as [Hgt|Hle]; [exists 1%nat, c; now apply Hguard|].
    pose proof (byte_at_is_byte b pos Hwf) as Hbyte. unfold is_byte in Hbyte.
    destruct (IH Hwf c jumped jumps "."%string
                ((sb ++ delim) ++ ToLower (string_of_bytes (slice c (pos + 1) n)))%string
                HB Hj Hk) as (fuel & c' & E).
    exists (S fuel), c'.
    rewrite (loop_pass_label fuel pos jumped jumps delim sb c n);
      try lia; [exact E|now rewrite (byte_at_same_Buf b)].
  - destruct (Z.ltb_spec 5 jumps) as [Hgt|Hle]; [exists 1%nat, c; now apply Hguard|].
    destruct (IH Hwf (if jumped then c else mkBuffer (Buf c) (pos + 2))
                true (jumps + 1) delim sb) as (fuel & c' & E).
    { destruct jumped; simpl; assumption. }
    { lia. }
    { lia. }
    exists (S fuel), c'.
    rewrite loop_pass_pointer; try lia;
      [|now rewrite HB|now rewrite (byte_at_same_Buf b)].
    rewrite !(byte_at_same_Buf b c) by assumption. exact E.
Qed.

(** A name that goes through 6 pointers is refused. *)
Lemma ReadQName_too_many b :
  buf_wf b -> jumps_from b (Pos b) 6 ->
  exists b', ReadQName b = Some (Err TooManyJumps, b').
Proof.
  intros (Hlen & Hbytes & Hpos) Hj. unfold is_uint16 in Hpos.
  destruct (loop_too_many b (Pos b) 6 Hj Hbytes b false 0 "" ""
              eq_refl ltac:(lia) ltac:(lia)) as (fuel & c' & E).
  apply ReadQName_loop_fuel_enough in E; [|assumption|lia|lia].
  exists c'. unfold ReadQName, ReadQName_with. rewrite E. reflexivity.
Qed.

Lemma pointer_cycle_jumps b p q :
  pointer_at b p q -> pointer_at b q p -> forall k, jumps_from b p k.
Proof.
  intros (Hp & Hp1 & Hptr & Hoff) (Hq & Hq1 & Hqtr & Hqoff).
  assert (forall k, jumps_from b p k /\ jumps_from b q k) as H.
  { induction k as [|k [IHp IHq]]; [split; apply jumps_none|].
    split; apply jumps_pointer; try assumption.
    - now rewrite Hoff.
    - now rewrite Hqoff. }
  intros k. apply H.
Qed.


(** Bytes of a slice, read one at a time or as a smaller slice. *)
Lemma slice_byte_at b X m w pos :
  slice b X m = w -> 0 <= X -> X <= pos < X + Z.of_nat (length w) ->
  byte_at b pos = default 0 (w !! Z.to_nat (pos - X)).
Proof.
  intros Hs HX Hpos. subst w. unfold slice, byte_at in *.
  rewrite length_take in Hpos.
  rewrite lookup_take_lt by lia.
  rewrite lookup_drop. do 2 f_equal. lia.
Qed.

Lemma slice_sub b X m w pos n :
  slice b X m = w -> 0 <= X -> X <= pos -> 0 <= n -> pos + n <= X + m ->
  slice b pos n = take (Z.to_nat n) (drop (Z.to_nat (pos - X)) w).
Proof.
  intros Hs HX Hpos Hn Hle. subst w. unfold slice.
  rewrite skipn_firstn_comm, take_take, drop_drop.
  replace (Z.to_nat n `min` (Z.to_nat m - Z.to_nat (pos - X)))%nat
    with (Z.to_nat n) by lia.
  do 2 f_equal. lia.
Qed.

Lemma name_label_eq b pos n k labels cur txt :
  0 <= pos < 512 -> byte_at b pos = n -> n <> 0 -> Z.land n 192 <> 192 ->
  txt = ToLower (string_of_bytes (slice b (pos + 1) n)) ->
  name_at b (pos + 1 + n) k labels cur ->
  name_at b pos k (txt :: labels) cur.
Proof. intros Hp Hn H0 Hnp -> Hrest. now apply name_label. Qed.

(** C4: when the cursor is on a compression pointer whose offset is the
    place of the labels [[3]www[6]google[3]com[0]], [ReadQName] returns
    "www.google.com" and leaves the cursor 2 bytes past the pointer; the
    bytes of the buffer are unchanged. *)
Theorem ReadQName_pointer_to_www_google_com (b : BytePacketBuffer) (X : Z) :
  buf_wf b ->
  Pos b + 1 < 512 ->
  Z.land (byte_at b (Pos b)) 192 = 192 ->
  pointer_offset (byte_at b (Pos b)) (byte_at b (Pos b + 1)) = X ->
  slice b X 16 = www_google_com_wire ->
  ReadQName b = Some (Ok "www.google.com"%string, mkBuffer (Buf b) (Pos b + 2)).
Proof.
  intros Hwf Hp1 Hptr Hoff Hs.
  pose proof Hwf as (Hlen & Hbytes & Hpos). unfold is_uint16 in Hpos.
  destruct (pointer_offset_code (byte_at b (Pos b)) (byte_at b (Pos b + 1)))
    as [_ HX]; try apply byte_at_is_byte; try assumption.
  rewrite Hoff in HX.
  assert (X + 16 <= 512) as Hroom.
  { pose proof (f_equal (@length Z) Hs) as Hl.
    unfold slice in Hl. rewrite length_take, length_drop, Hlen in Hl.
    change (Z.to_nat 16) with 16%nat in Hl.
    change (length www_google_com_wire) with 16%nat in Hl. lia. }
  assert (forall pos, X <= pos < X + 16 ->
            byte_at b pos = default 0 (www_google_com_wire !! Z.to_nat (pos - X)))
    as Hbyte.
  { intros pos Hpos'. apply (slice_byte_at b X 16); [assumption|lia|].
    simpl. lia. }
  assert (forall pos n, X <= pos -> 0 <= n -> pos + n <= X + 16 ->
            slice b pos n
            = take (Z.to_nat n) (drop (Z.to_nat (pos - X)) www_google_com_wire))
    as Hsub.
  { intros pos n H1 H2 H3. now apply (slice_sub b X 16). }
  change "www.google.com"%string with (join_dot ["www"; "google"; "com"]%string).
  apply (ReadQName_resolves b 1); [assumption| |lia].
  apply (name_pointer b (Pos b) 0 _ (X + 1 + 3 + 1 + 6 + 1 + 3 + 1));
    [lia|lia|assumption|].
  rewrite Hoff.
  apply (name_label_eq b X 3);
    [lia| |lia|vm_compute; discriminate| |].
  { rewrite Hbyte by lia. replace (X - X) with 0 by lia. reflexivity. }
  { rewrite Hsub by lia. replace (X + 1 - X) with 1 by lia. reflexivity. }
  apply (name_label_eq b (X + 1 + 3) 6);
    [lia| |lia|vm_compute; discriminate| |].
  { rewrite Hbyte by lia. replace (X + 1 + 3 - X) with 4 by lia. reflexivity. }
  { rewrite Hsub by lia. replace (X + 1 + 3 + 1 - X) with 5 by lia. reflexivity. }
  apply (name_label_eq b (X + 1 + 3 + 1 + 6) 3);
    [lia| |lia|vm_compute; discriminate| |].
  { rewrite Hbyte by lia. replace (X + 1 + 3 + 1 + 6 - X) with 11 by lia.
    reflexivity. }
  { rewrite Hsub by lia. replace (X + 1 + 3 + 1 + 6 + 1 - X) with 12 by lia.
    reflexivity. }
  apply name_end; [lia|].
  rewrite Hbyte by lia. replace (X + 1 + 3 + 1 + 6 + 1 + 3 - X) with 15 by lia.
  reflexivity.
Qed.

(** A pointer at offset 0 to the labels at offset 16. *)
Lemma ReadQName_pointer_to_www_google_com_witness :
  ReadQName compressed_name_buffer
  = Some (Ok "www.google.com"%string, mkBuffer (Buf compressed_name_buffer) 2).
Proof.
  apply (ReadQName_pointer_to_www_google_com compressed_name_buffer 16).
  - apply buf_wfb_correct. vm_compute. reflexivity.
  - vm_compute. reflexivity.
  - vm_compute. reflexivity.
  - vm_compute. reflexivity.
  - vm_compute. reflexivity.
Defined.

(** C5: [ReadQName] terminates on every well-formed buffer: the fuel of
    the model is never used up and more fuel gives the same result.  A name
    that resolves through at most 5 compression pointers is decoded, to its
    labels joined by dots, and the cursor is left after the name.  A name
    that goes through 6 pointers or more, and so two pointers that point at
    each other, makes the method fail with the too-many-jumps error. *)
Theorem ReadQName_terminates_with_jump_guard (b : BytePacketBuffer) :
  buf_wf b ->
  (exists r, ReadQName b = Some r /\
             forall fuel, (ReadQName_fuel <= fuel)%nat -> ReadQName_with fuel b = Some r) /\
  (forall k labels cur,
     name_at b (Pos b) k labels cur -> (k <= 5)%nat ->
     ReadQName b = Some (Ok (join_dot labels), mkBuffer (Buf b) cur)) /\
  (jumps_from b (Pos b) 6 ->
     exists b', ReadQName b = Some (Err TooManyJumps, b')) /\
  (forall q, pointer_at b (Pos b) q -> pointer_at b q (Pos b) ->
     exists b', ReadQName b = Some (Err TooManyJumps, b')).
Proof.
  intros Hwf. split; [|split; [|split]].
  - pose proof Hwf as (Hlen & Hbytes & Hpos). unfold is_uint16 in Hpos.
    destruct (ReadQName_loop_total ReadQName_fuel (Pos b) false 0 "" "" b Hbytes
                ltac:(lia) ltac:(lia)
                (passes_left_initial (Pos b) 0 ltac:(lia) ltac:(lia)))
      as [r Hr].
    destruct (ReadQName_with_total ReadQName_fuel b r Hr) as [r' E].
    exists r'. split; [exact E|].
    intros fuel Hfuel. rewrite <- E.
    now apply (ReadQName_with_mono ReadQName_fuel fuel b r).
  - intros k labels cur Hname Hk. now apply (ReadQName_resolves b k).
  - now apply ReadQName_too_many.
  - intros q Hpq Hqp. apply ReadQName_too_many; [assumption|].
    now apply (pointer_cycle_jumps b (Pos b) q).
Qed.

(** Two pointers that point at each other. *)
Lemma ReadQName_terminates_with_jump_guard_witness :
  (exists r, ReadQName pointer_cycle_buffer = Some r) /\
  (exists b', ReadQName pointer_cycle_buffer = Some (Err TooManyJumps, b')).
Proof.
  destruct (ReadQName_terminates_with_jump_guard pointer_cycle_buffer)
    as ((r & Hr & _) & _ & _ & Hcycle).
  - apply buf_wfb_correct. vm_compute. reflexivity.
  - split; [exists r; exact Hr|].
    apply (Hcycle 2); unfold pointer_at; vm_compute; repeat split; discriminate.
Defined.

(** ** Defects of the encoder *)

(** C2 (defect): [DnsHeader.Write] builds the second flag byte and never
    writes it.  For every header the method emits 11 bytes on a fresh
    buffer, and the counts start at byte 3.  For the NXDOMAIN response the
    bytes are id, 0x81, then the counts, without the 0x83 the layout puts
    at byte 3, and [DnsHeader.Read] of these bytes yields response code
    NOERROR, no RA flag and 256 questions. *)
Theorem DnsHeader_Write_omits_second_flag_byte :
  (forall h, fst (DnsHeader_Write h NewBytePacketBuffer) = Ok tt /\
             Pos (snd (DnsHeader_Write h NewBytePacketBuffer)) = 11) /\
  written (snd (DnsHeader_Write nxdomain_response_header NewBytePacketBuffer))
  = [26; 10; 129; 0; 1; 0; 1; 0; 0; 0; 0] /\
  fst (DnsHeader_Read
         (rewind (snd (DnsHeader_Write nxdomain_response_header NewBytePacketBuffer))))
  = Ok (mkHeader 6666 true false false 0 true NOERROR false false false false
                 256 256 0 0).
Proof.
  split; [|split].
  - intros [id rd tc aa op qr rc cd ad z ra qs an au rs].
    vm_compute. split; reflexivity.
  - vm_compute. reflexivity.
  - vm_compute. reflexivity.
Qed.

(** C3 (defect): [WriteQName] writes the zero byte inside the loop over
    the labels, once per label.  "google.com" is emitted as
    [[6]google[0][3]com[0]], 13 bytes with two zero bytes, not as
    [[6]google[3]com[0]]; [ReadQName] reads the bytes back as "google". *)
Theorem WriteQName_terminates_every_label :
  (forall qname, emits (WriteQName qname) (qname_wire qname)) /\
  fst (WriteQName "google.com" NewBytePacketBuffer) = Ok tt /\
  written (snd (WriteQName "google.com" NewBytePacketBuffer))
  = [6; 103; 111; 111; 103; 108; 101; 0; 3; 99; 111; 109; 0] /\
  option_map fst
    (ReadQName (rewind (snd (WriteQName "google.com" NewBytePacketBuffer))))
  = Some (Ok "google"%string).
Proof.
  split; [exact emits_WriteQName|].
  vm_compute. repeat split.
Qed.

(** C6 (defect): [DnsQuestion.Write] writes [uint16(dq.Type)], the value
    of the Go constant, and not [RecordTypeToNum(dq.Type)].  The type field
    of a question named "a" holds 0 and that value for every type; for
    CNAME, MX and AAAA it is 3, 4, 5 and not the wire code 5, 15, 28. *)
Theorem DnsQuestion_Write_type_is_constant_value :
  (forall t,
     written (snd (DnsQuestion_Write (NewDnsQuestion "a" t) NewBytePacketBuffer))
     = [1; 97; 0; 0; RecordType_int t; 0; 1]) /\
  RecordType_int CNAME = 3 /\ RecordTypeToNum CNAME = 5 /\
  RecordType_int MX = 4 /\ RecordTypeToNum MX = 15 /\
  RecordType_int AAAA = 5 /\ RecordTypeToNum AAAA = 28.
Proof.
  split; [|repeat split].
  intros []; vm_compute; reflexivity.
Qed.

(** C1 (defect): the request of the command-line client does not survive
    the round trip.  [DnsPacket.Write] succeeds and emits 28 bytes;
    [FromBuffer2DnsPacket] over these bytes reads 256 as the number of
    questions and fails with the end-of-buffer error.  Run on the written
    buffer as it is, cursor at 28, it reads the zero bytes that follow and
    returns the empty message. *)
Theorem roundtrip_fails_on_google_query :
  fst (DnsPacket_Write google_query NewBytePacketBuffer) = Ok google_query /\
  Pos (snd (DnsPacket_Write google_query NewBytePacketBuffer)) = 28 /\
  fst (DnsHeader_Read (rewind (snd (DnsPacket_Write google_query NewBytePacketBuffer))))
  = Ok (mkHeader 6666 true false false 0 false NOERROR false false false false
                 256 0 0 6) /\
  option_map fst
    (FromBuffer2DnsPacket
       (rewind (snd (DnsPacket_Write google_query NewBytePacketBuffer))))
  = Some (Err EndOfBuffer) /\
  option_map fst
    (FromBuffer2DnsPacket (snd (DnsPacket_Write google_query NewBytePacketBuffer)))
  = Some (Ok NewDnsPacket).
Proof. vm_compute. repeat split. Qed.


(** * Further properties of the codec *)

(** ** Big-endian integers *)

Lemma lor_mul_pow2 a n c : 0 <= n -> 0 <= c < 2 ^ n ->
  Z.lor (a * 2 ^ n) c = a * 2 ^ n + c.
Proof.
  intros Hn Hc. symmetry. apply Z.add_nocarry_lor.
  apply Z.bits_inj'. intros i Hi.
  rewrite Z.land_spec, Z.bits_0.
  destruct (Z.ltb_spec i n).
  - rewrite Z.mul_pow2_bits_low by lia. reflexivity.
  - assert (Z.testbit c i = false) as ->; [|apply andb_false_r].
    destruct (Z.eq_dec c 0) as [->|Hne]; [apply Z.bits_0|].
    apply Z.bits_above_log2; [lia|].
    apply Z.log2_lt_pow2; [lia|].
    apply Z.lt_le_trans with (2 ^ n); [lia|].
    apply Z.pow_le_mono_r; lia.
Qed.

(** The value [Read2Bytes] builds from two bytes. *)
Lemma read16_value hi lo : is_byte hi -> is_byte lo ->
  Z.lor (uint16 (Z.shiftl hi 8)) lo = be16_value hi lo.
Proof.
  unfold is_byte, be16_value. intros Hh Hl.
  rewrite Z.shiftl_mul_pow2 by lia.
  rewrite uint16_small by (change (2 ^ 8) with 256; lia).
  rewrite lor_mul_pow2 by (change (2 ^ 8) with 256; lia).
  reflexivity.
Qed.

(** The value [Read4Bytes] builds from four bytes. *)
Lemma read32_value b1 b2 b3 b4 :
  is_byte b1 -> is_byte b2 -> is_byte b3 -> is_byte b4 ->
  Z.lor (Z.lor (Z.lor (uint32 (Z.shiftl b1 24)) (uint32 (Z.shiftl b2 16)))
               (uint32 (Z.shiftl b3 8))) b4
  = be32_value b1 b2 b3 b4.
Proof.
  unfold is_byte, be32_value. intros H1 H2 H3 H4.
  rewrite !Z.shiftl_mul_pow2 by lia.
  change (2 ^ 24) with 16777216. change (2 ^ 16) with 65536.
  change (2 ^ 8) with 256.
  unfold uint32. rewrite !Z.mod_small by lia.
  replace (b1 * 16777216) with ((b1 * 256) * 2 ^ 16) by (change (2 ^ 16) with 65536; lia).
  replace (b2 * 65536) with (b2 * 2 ^ 16) by reflexivity.
  assert (Z.lor (b1 * 256 * 2 ^ 16) (b2 * 2 ^ 16) = (b1 * 256 + b2) * 2 ^ 16) as ->.
  { rewrite <- !Z.shiftl_mul_pow2 by lia. rewrite <- Z.shiftl_lor.
    f_equal. change 256 with (2 ^ 8).
    apply lor_mul_pow2; [lia|change (2 ^ 8) with 256; lia]. }
  rewrite lor_mul_pow2 by (change (2 ^ 16) with 65536; lia).
  replace ((b1 * 256 + b2) * 2 ^ 16 + b3 * 256)
    with (((b1 * 256 + b2) * 256 + b3) * 2 ^ 8)
    by (change (2 ^ 16) with 65536; change (2 ^ 8) with 256; lia).
  rewrite lor_mul_pow2 by (change (2 ^ 8) with 256; lia).
  reflexivity.
Qed.



Lemma be16_digits v : 0 <= v < 65536 ->
  be16_value (uint8 (Z.shiftr v 8)) (uint8 (Z.land v 255)) = v.
Proof.
  intros Hv. rewrite <- read16_value by apply uint8_range.
  now apply big_endian_16.
Qed.

Lemma be32_digits v : 0 <= v < 4294967296 ->
  be32_value (uint8 (Z.land (Z.shiftr v 24) 255))
             (uint8 (Z.land (Z.shiftr v 16) 255))
             (uint8 (Z.land (Z.shiftr v 8) 255))
             (uint8 (Z.land v 255)) = v.
Proof.
  intros Hv. unfold be32_value, uint8.
  rewrite !Z.shiftr_div_pow2 by lia.
  change 255 with (Z.ones 8). rewrite !Z.land_ones by lia.
  change (2 ^ 8) with 256. change (2 ^ 16) with 65536.
  change (2 ^ 24) with 16777216.
  rewrite !Z.mod_mod by lia.
  pose proof (Z.div_mod v 256 ltac:(lia)).
  pose proof (Z.div_mod (v / 256) 256 ltac:(lia)).
  pose proof (Z.div_mod (v / 256 / 256) 256 ltac:(lia)).
  rewrite !Z.div_div in * by lia.
  change (256 * 256) with 65536 in *. change (65536 * 256) with 16777216 in *.
  assert (0 <= v / 16777216 < 256)
    by (split; [apply Z.div_pos; lia | apply Z.div_lt_upper_bound; lia]).
  rewrite (Z.mod_small (v / 16777216)) by lia.
  pose proof (Z.mod_pos_bound v 256 ltac:(lia)).
  pose proof (Z.mod_pos_bound (v / 256) 256 ltac:(lia)).
  pose proof (Z.mod_pos_bound (v / 65536) 256 ltac:(lia)).
  lia.
Qed.

(** ** Reading bytes that are known to be at the cursor *)

Lemma at_cursor_nil b : 0 <= Pos b <= 512 -> at_cursor b [].
Proof. intros H. unfold at_cursor, slice. simpl. repeat split; lia. Qed.

Lemma at_cursor_head b x w :
  at_cursor b (x :: w) -> byte_at b (Pos b) = x /\ Pos b < 512.
Proof.
  intros (Hp & Hle & Hs). simpl length in *. split; [|lia].
  rewrite (slice_byte_at b (Pos b) _ _ (Pos b) Hs) by (simpl length; lia).
  replace (Pos b - Pos b) with 0 by lia. reflexivity.
Qed.

Lemma at_cursor_tail b w1 w2 :
  at_cursor b (w1 ++ w2) -> at_cursor (advance b (Z.of_nat (length w1))) w2.
Proof.
  intros (Hp & Hle & Hs). rewrite length_app in *.
  unfold at_cursor, advance. simpl. split; [lia|]. split; [lia|].
  change (slice b (Pos b + Z.of_nat (length w1)) (Z.of_nat (length w2)) = w2).
  rewrite (slice_sub b (Pos b) _ _ _ _ Hs) by lia.
  replace (Z.to_nat (Pos b + Z.of_nat (length w1) - Pos b)) with (length w1) by lia.
  rewrite drop_app_length. rewrite Nat2Z.id. apply take_ge. lia.
Qed.


Lemma at_cursor_same_Buf b c w :
  Buf c = Buf b -> Pos c = Pos b -> at_cursor b w -> at_cursor c w.
Proof.
  intros HB HP (Hp & Hle & Hs). unfold at_cursor.
  rewrite HP, (slice_same_Buf b c) by assumption. auto.
Qed.

(** The bytes a writer has stored are at the cursor it started from. *)
Lemma emits_at_cursor m w b b' :
  emits m w -> 0 <= Pos b <= 512 -> length (Buf b) = 512%nat ->
  m b = (Ok tt, b') ->
  at_cursor (mkBuffer (Buf b') (Pos b)) w /\ Pos b' = Pos b + Z.of_nat (length w)
  /\ length (Buf b') = 512%nat.
Proof.
  intros He Hp Hl Hm. destruct (He b b' Hp Hl Hm) as (HB & HP & Hle).
  assert (length (Buf b') = 512%nat) as Hl' by (rewrite HB, splice_length; lia).
  split; [|split; assumption].
  unfold at_cursor. simpl. split; [lia|]. split; [lia|].
  unfold slice. simpl. rewrite HB, Nat2Z.id. apply splice_slice. lia.
Qed.

Lemma Read_at_cursor b x w :
  at_cursor b (x :: w) ->
  Read b = (Ok x, advance b 1) /\ at_cursor (advance b 1) w.
Proof.
  intros H. destruct (at_cursor_head b x w H) as [Hx Hlt].
  pose proof H as (Hp & _ & _).
  split.
  - rewrite Read_in_range by lia. now rewrite Hx.
  - apply (at_cursor_tail b [x] w H).
Qed.

Lemma advance_advance b n m : advance (advance b n) m = advance b (n + m).
Proof. unfold advance. simpl. f_equal. lia. Qed.

Lemma Read2Bytes_at_cursor b hi lo w :
  at_cursor b (hi :: lo :: w) ->
  Read2Bytes b = (Ok (Z.lor (uint16 (Z.shiftl hi 8)) lo), advance b 2)
  /\ at_cursor (advance b 2) w.
Proof.
  intros H.
  destruct (Read_at_cursor b hi (lo :: w) H) as [R1 H1].
  destruct (Read_at_cursor _ lo w H1) as [R2 H2].
  rewrite advance_advance in H2.
  unfold Read2Bytes, bind. rewrite R1, R2.
  rewrite advance_advance. split; [reflexivity|exact H2].
Qed.

Lemma Read4Bytes_at_cursor b b1 b2 b3 b4 w :
  at_cursor b (b1 :: b2 :: b3 :: b4 :: w) ->
  Read4Bytes b
  = (Ok (Z.lor (Z.lor (Z.lor (uint32 (Z.shiftl b1 24)) (uint32 (Z.shiftl b2 16)))
                      (uint32 (Z.shiftl b3 8))) b4), advance b 4)
  /\ at_cursor (advance b 4) w.
Proof.
  intros H.
  destruct (Read_at_cursor b b1 _ H) as [R1 H1].
  destruct (Read_at_cursor _ b2 _ H1) as [R2 H2].
  destruct (Read_at_cursor _ b3 _ H2) as [R3 H3].
  destruct (Read_at_cursor _ b4 _ H3) as [R4 H4].
  rewrite !advance_advance in H4.
  unfold Read4Bytes, bind. rewrite R1, R2, R3, R4.
  rewrite !advance_advance. split; [reflexivity|exact H4].
Qed.

(** ** Writers succeed where their bytes fit *)

Lemma runs_ret : runs (ret tt) [].
Proof. intros b Hp Hle. exists b. simpl. split; [reflexivity|lia]. Qed.

Lemma runs_write v : runs (write v) [v].
Proof.
  intros b Hp Hle. simpl in Hle.
  rewrite write_in_range by lia. eexists. split; [reflexivity|]. simpl. lia.
Qed.

Lemma runs_bind m1 m2 w1 w2 :
  runs m1 w1 -> runs m2 w2 -> runs (m1 ;;; m2) (w1 ++ w2).
Proof.
  intros H1 H2 b Hp Hle. rewrite length_app in *.
  destruct (H1 b Hp ltac:(lia)) as (b1 & E1 & P1).
  destruct (H2 b1 ltac:(lia) ltac:(lia)) as (b2 & E2 & P2).
  exists b2. unfold bind. rewrite E1. split; [exact E2|lia].
Qed.

Lemma runs_Write2Byte v : runs (Write2Byte v) (be16 v).
Proof.
  unfold Write2Byte, be16.
  apply (runs_bind _ _ [_] [_]); apply runs_write.
Qed.

Lemma runs_Write4Byte v : runs (Write4Byte v) (be32 v).
Proof.
  unfold Write4Byte, be32.
  apply (runs_bind _ _ [_] [_; _; _]); [apply runs_write|].
  apply (runs_bind _ _ [_] [_; _]); [apply runs_write|].
  apply (runs_bind _ _ [_] [_]); apply runs_write.
Qed.

Lemma runs_write_bytes l : runs (write_bytes l) l.
Proof.
  induction l as [|v l IH]; simpl.
  - apply runs_ret.
  - apply (runs_bind _ _ [v] l); [apply runs_write|exact IH].
Qed.

(** X1: a 16-bit value written with [Write2Byte] anywhere up to offset 510
    is read back by [Read2Bytes] from the same offset, and the read ends in
    the state the write left. *)
Theorem Write2Byte_Read2Bytes_roundtrip (b : BytePacketBuffer) (v : Z) :
  length (Buf b) = 512%nat -> 0 <= Pos b <= 510 -> 0 <= v < 65536 ->
  exists b', Write2Byte v b = (Ok tt, b') /\
             Read2Bytes (mkBuffer (Buf b') (Pos b)) = (Ok v, b').
Proof.
  intros Hl Hp Hv.
  destruct (runs_Write2Byte v b ltac:(lia) ltac:(simpl; lia)) as (b' & Hw & HP).
  exists b'. split; [assumption|].
  destruct (emits_at_cursor _ _ b b' (emits_Write2Byte v) ltac:(lia) Hl Hw)
    as (Hat & _ & _).
  destruct (Read2Bytes_at_cursor _ _ _ [] Hat) as [HR _].
  rewrite HR. rewrite big_endian_16 by assumption.
  f_equal. unfold advance. simpl. destruct b' as [B' P']. simpl in *.
  f_equal. lia.
Qed.

Lemma Write2Byte_Read2Bytes_roundtrip_witness :
  exists b', Write2Byte 6666 (mkBuffer (Buf NewBytePacketBuffer) 510) = (Ok tt, b') /\
             Read2Bytes (mkBuffer (Buf b') 510) = (Ok 6666, b').
Proof.
  apply (Write2Byte_Read2Bytes_roundtrip (mkBuffer (Buf NewBytePacketBuffer) 510) 6666).
  - reflexivity.
  - simpl. lia.
  - lia.
Defined.

(** X2: a 32-bit value written with [Write4Byte] anywhere up to offset 508
    is read back by [Read4Bytes] from the same offset. *)
Theorem Write4Byte_Read4Bytes_roundtrip (b : BytePacketBuffer) (v : Z) :
  length (Buf b) = 512%nat -> 0 <= Pos b <= 508 -> 0 <= v < 4294967296 ->
  exists b', Write4Byte v b = (Ok tt, b') /\
             Read4Bytes (mkBuffer (Buf b') (Pos b)) = (Ok v, b').
Proof.
  intros Hl Hp Hv.
  destruct (runs_Write4Byte v b ltac:(lia) ltac:(simpl; lia)) as (b' & Hw & HP).
  exists b'. split; [assumption|].
  destruct (emits_at_cursor _ _ b b' (emits_Write4Byte v) ltac:(lia) Hl Hw)
    as (Hat & _ & _).
  destruct (Read4Bytes_at_cursor _ _ _ _ _ [] Hat) as [HR _].
  rewrite HR. rewrite read32_value by apply uint8_range.
  rewrite be32_digits by assumption.
  f_equal. unfold advance. simpl. destruct b' as [B' P']. simpl in *.
  f_equal. lia.
Qed.

Lemma Write4Byte_Read4Bytes_roundtrip_witness :
  exists b', Write4Byte 4000000000 (mkBuffer (Buf NewBytePacketBuffer) 508)
             = (Ok tt, b') /\
             Read4Bytes (mkBuffer (Buf b') 508) = (Ok 4000000000, b').
Proof.
  apply (Write4Byte_Read4Bytes_roundtrip
           (mkBuffer (Buf NewBytePacketBuffer) 508) 4000000000).
  - reflexivity.
  - simpl. lia.
  - lia.
Defined.

(** ** Multi-byte accesses at the end of the buffer *)

Lemma Read_in_range_advance c :
  0 <= Pos c <= 511 -> Read c = (Ok (byte_at c (Pos c)), advance c 1).
Proof. intros Hc. now apply Read_in_range. Qed.

Lemma Read_out_of_range_max c :
  512 <= Pos c -> Read c = (Err EndOfBuffer, mkBuffer (Buf c) (Z.max 512 (Pos c))).
Proof.
  intros Hc. rewrite Read_out_of_range by assumption.
  rewrite Z.max_r by lia. now destruct c.
Qed.

Lemma Read2Bytes_in_range b :
  0 <= Pos b <= 510 ->
  Read2Bytes b
  = (Ok (Z.lor (uint16 (Z.shiftl (byte_at b (Pos b)) 8)) (byte_at b (Pos b + 1))),
     advance b 2).
Proof.
  intros H. unfold Read2Bytes, bind.
  rewrite Read_in_range_advance by lia.
  rewrite Read_in_range_advance by (simpl; lia).
  rewrite advance_advance. reflexivity.
Qed.

Lemma Read2Bytes_out_of_range b :
  510 < Pos b ->
  Read2Bytes b = (Err EndOfBuffer, mkBuffer (Buf b) (Z.max 512 (Pos b))).
Proof.
  intros H. unfold Read2Bytes, bind.
  destruct (Z.eq_dec (Pos b) 511) as [E|NE].
  - rewrite Read_in_range_advance by lia.
    rewrite Read_out_of_range_max by (simpl; lia).
    simpl. rewrite E. reflexivity.
  - rewrite Read_out_of_range_max by lia. reflexivity.
Qed.

Lemma Read4Bytes_in_range b :
  0 <= Pos b <= 508 -> exists v, Read4Bytes b = (Ok v, advance b 4).
Proof.
  intros H. unfold Read4Bytes, bind.
  rewrite Read_in_range_advance by lia.
  rewrite Read_in_range_advance by (simpl; lia).
  rewrite Read_in_range_advance by (simpl; lia).
  rewrite Read_in_range_advance by (simpl; lia).
  rewrite !advance_advance. eexists. reflexivity.
Qed.

Lemma Read4Bytes_out_of_range b :
  0 <= Pos b -> 508 < Pos b ->
  Read4Bytes b = (Err EndOfBuffer, mkBuffer (Buf b) (Z.max 512 (Pos b))).
Proof.
  intros Hp H. unfold Read4Bytes, bind.
  destruct (Z_le_gt_dec 512 (Pos b)) as [Hge|Hlt].
  { rewrite Read_out_of_range_max by lia. reflexivity. }
  rewrite Read_in_range_advance by lia.
  destruct (Z.eq_dec (Pos b) 511) as [E|NE].
  { rewrite Read_out_of_range_max by (simpl; lia). simpl. rewrite E. reflexivity. }
  rewrite Read_in_range_advance by (simpl; lia).
  destruct (Z.eq_dec (Pos b) 510) as [E|NE'].
  { rewrite Read_out_of_range_max by (simpl; lia). simpl. rewrite E. reflexivity. }
  rewrite Read_in_range_advance by (simpl; lia).
  rewrite Read_out_of_range_max by (simpl; lia). simpl.
  replace (Pos b) with 509 by lia. reflexivity.
Qed.

(** X3: [Read2Bytes] succeeds exactly when the cursor is at most 510 and
    [Read4Bytes] when it is at most 508, moving the cursor by 2 and by 4.
    Otherwise they fail with the end-of-buffer error, and the bytes that
    were still in range have been consumed: the cursor is left at 512 (or
    where it was, beyond 512).  The bytes of the buffer are never changed. *)
Theorem multi_byte_reads_at_the_end (b : BytePacketBuffer) :
  0 <= Pos b ->
  (Pos b <= 510 -> exists v, Read2Bytes b = (Ok v, advance b 2)) /\
  (510 < Pos b ->
   Read2Bytes b = (Err EndOfBuffer, mkBuffer (Buf b) (Z.max 512 (Pos b)))) /\
  (Pos b <= 508 -> exists v, Read4Bytes b = (Ok v, advance b 4)) /\
  (508 < Pos b ->
   Read4Bytes b = (Err EndOfBuffer, mkBuffer (Buf b) (Z.max 512 (Pos b)))).
Proof.
  intros Hp. split; [|split; [|split]]; intros H.
  - rewrite Read2Bytes_in_range by lia. eexists. reflexivity.
  - now apply Read2Bytes_out_of_range.
  - apply Read4Bytes_in_range. lia.
  - now apply Read4Bytes_out_of_range.
Qed.

Lemma multi_byte_reads_at_the_end_witness :
  Read2Bytes (mkBuffer (Buf NewBytePacketBuffer) 511)
  = (Err EndOfBuffer, mkBuffer (Buf NewBytePacketBuffer) 512) /\
  Read4Bytes (mkBuffer (Buf NewBytePacketBuffer) 509)
  = (Err EndOfBuffer, mkBuffer (Buf NewBytePacketBuffer) 512).
Proof.
  destruct (multi_byte_reads_at_the_end (mkBuffer (Buf NewBytePacketBuffer) 511))
    as (_ & H2 & _); [simpl; lia|].
  destruct (multi_byte_reads_at_the_end (mkBuffer (Buf NewBytePacketBuffer) 509))
    as (_ & _ & _ & H4); [simpl; lia|].
  split; [apply H2|apply H4]; simpl; lia.
Defined.

(** X4: a write that runs into the end of the buffer is not undone.
    [Write2Byte] with the cursor at 511 stores the high byte at offset 511,
    moves the cursor to 512 and then fails with the end-of-buffer error;
    with the cursor at 512 or beyond it fails and changes nothing. *)
Theorem Write2Byte_at_the_end (b : BytePacketBuffer) (v : Z) :
  (Pos b = 511 ->
   Write2Byte v b
   = (Err EndOfBuffer,
      mkBuffer (<[511%nat := uint8 (Z.shiftr v 8)]> (Buf b)) 512)) /\
  (512 <= Pos b -> Write2Byte v b = (Err EndOfBuffer, b)).
Proof.
  split; intros H; unfold Write2Byte, bind.
  - rewrite write_in_range by lia.
    rewrite write_out_of_range by (simpl; lia).
    rewrite H. reflexivity.
  - rewrite write_out_of_range by lia. reflexivity.
Qed.

Lemma Write2Byte_at_the_end_witness :
  Write2Byte 6666 (mkBuffer (Buf NewBytePacketBuffer) 511)
  = (Err EndOfBuffer,
     mkBuffer (<[511%nat := uint8 (Z.shiftr 6666 8)]> (Buf NewBytePacketBuffer)) 512).
Proof.
  apply (Write2Byte_at_the_end (mkBuffer (Buf NewBytePacketBuffer) 511) 6666).
  reflexivity.
Defined.

(** ** Loading a datagram *)

(** X5: [SetBuffer] keeps the size of the array and the cursor, stores the
    first 512 bytes of the data at the start of the array at most, and
    leaves the bytes after the data as they were.  A fresh buffer loaded
    with bytes is well formed. *)
Theorem SetBuffer_copies_a_prefix (data : list Z) (b : BytePacketBuffer) :
  length (Buf b) = 512%nat ->
  length (Buf (SetBuffer data b)) = 512%nat /\
  Pos (SetBuffer data b) = Pos b /\
  take (length data) (Buf (SetBuffer data b)) = take 512 data /\
  drop (length data) (Buf (SetBuffer data b)) = drop (length data) (Buf b) /\
  (Forall is_byte data -> buf_wf b -> buf_wf (SetBuffer data b)).
Proof.
  intros Hl. unfold SetBuffer. simpl. rewrite Hl.
  assert (length (take (length data `min` 512) data) = (length data `min` 512)%nat)
    as Htl by (rewrite length_take; lia).
  split; [|split; [reflexivity|split; [|split]]].
  - rewrite length_app, Htl, length_drop. lia.
  - destruct (Nat.le_gt_cases (length data) 512) as [Hle|Hgt].
    + rewrite Nat.min_l by lia. rewrite firstn_all.
      rewrite take_app_length. rewrite take_ge by lia. reflexivity.
    + rewrite Nat.min_r by lia. rewrite drop_ge by lia.
      rewrite app_nil_r. rewrite take_ge by (rewrite length_take; lia).
      reflexivity.
  - destruct (Nat.le_gt_cases (length data) 512) as [Hle|Hgt].
    + rewrite Nat.min_l by lia. rewrite firstn_all.
      now rewrite drop_app_length.
    + rewrite Nat.min_r by lia.
      rewrite !drop_ge; try reflexivity; try lia.
      rewrite length_app, length_take, length_drop. lia.
  - intros Hd (_ & Hb & Hp). unfold buf_wf. simpl.
    split; [rewrite length_app, Htl, length_drop; lia|].
    split; [|assumption].
    apply Forall_app. split.
    + now apply Forall_take.
    + now apply Forall_drop.
Qed.

Lemma SetBuffer_copies_a_prefix_witness :
  length (Buf (SetBuffer [192; 2; 192; 0] NewBytePacketBuffer)) = 512%nat /\
  take 4 (Buf (SetBuffer [192; 2; 192; 0] NewBytePacketBuffer)) = [192; 2; 192; 0].
Proof.
  destruct (SetBuffer_copies_a_prefix [192; 2; 192; 0] NewBytePacketBuffer)
    as (Hl & _ & Ht & _); [reflexivity|].
  split; [exact Hl|exact Ht].
Defined.

(** ** The header codec *)

(** The two bytes taken out of the flags word are the bytes read. *)
Lemma split16 hi lo : is_byte hi -> is_byte lo ->
  uint8 (Z.shiftr (Z.lor (uint16 (Z.shiftl hi 8)) lo) 8) = hi /\
  uint8 (Z.land (Z.lor (uint16 (Z.shiftl hi 8)) lo) 255) = lo.
Proof.
  intros Hh Hl. rewrite read16_value by assumption.
  unfold is_byte, be16_value, uint8 in *.
  rewrite Z.shiftr_div_pow2 by lia. change (2 ^ 8) with 256.
  change 255 with (Z.ones 8). rewrite Z.land_ones by lia. change (2 ^ 8) with 256.
  rewrite Z.mod_mod by lia.
  rewrite Z.div_add_l by lia. rewrite (Z.div_small lo) by lia.
  rewrite Z.add_0_r. rewrite (Z.mod_small hi) by lia.
  rewrite Z.add_comm, Z.mod_add by lia. rewrite Z.mod_small by lia. auto.
Qed.

(** [DnsHeader.Read] takes the fields of the first flag byte apart as
    [DnsHeader.Write] put them together. *)
Lemma flag1_decode h :
  0 <= Opcode h < 16 ->
  is_byte (header_flag1 h) /\
  bit_set (header_flag1 h) 0 = RecursionDesired h /\
  bit_set (header_flag1 h) 1 = TruncatedMessage h /\
  bit_set (header_flag1 h) 2 = AuthoritativeAnswer h /\
  Z.land (Z.shiftr (header_flag1 h) 3) 15 = Opcode h /\
  bit_set (header_flag1 h) 7 = Response h.
Proof.
  destruct h as [id rd tc aa op qr rc cd ad z ra qs an au rs]. simpl.
  intros Hop. unfold header_flag1, is_byte. simpl.
  assert (op = 0 \/ op = 1 \/ op = 2 \/ op = 3 \/ op = 4 \/ op = 5 \/ op = 6 \/
          op = 7 \/ op = 8 \/ op = 9 \/ op = 10 \/ op = 11 \/ op = 12 \/
          op = 13 \/ op = 14 \/ op = 15) as Hcases by lia.
  destruct rd, tc, aa, qr;
    repeat (destruct Hcases as [->|Hcases]); try subst op;
    vm_compute; repeat split; congruence.
Qed.

Lemma flag2_decode h :
  is_byte (header_flag2 h) /\
  FromNum2ResultCode (Z.land (header_flag2 h) 15) = Rescode h /\
  bit_set (header_flag2 h) 4 = CheckingDisabled h /\
  bit_set (header_flag2 h) 5 = AuthedData h /\
  bit_set (header_flag2 h) 6 = Z_ h /\
  bit_set (header_flag2 h) 7 = RecursionAvailable h.
Proof.
  destruct h as [id rd tc aa op qr rc cd ad z ra qs an au rs].
  unfold header_flag2, is_byte. simpl.
  destruct rc, cd, ad, z, ra; vm_compute; repeat split; congruence.
Qed.

Lemma read_be16 v : 0 <= v < 65536 ->
  Z.lor (uint16 (Z.shiftl (uint8 (Z.shiftr v 8)) 8)) (uint8 (Z.land v 255)) = v.
Proof. apply big_endian_16. Qed.

(** X6: [DnsHeader.Read] inverts the 12-byte layout.  When the bytes at the
    cursor are the id, the two flag bytes packed as [DnsHeader.Write] packs
    them, and the four counts of a header whose fields are in range, the
    method returns that header and moves the cursor by 12. *)
Theorem DnsHeader_Read_decodes_the_layout (b : BytePacketBuffer) (h : DnsHeader) :
  header_in_range h ->
  at_cursor b (header_wire h) ->
  DnsHeader_Read b = (Ok h, advance b 12).
Proof.
  intros (Hid & Hop & Hq & Han & Hau & Hrs) Hat.
  unfold is_uint16 in *.
  destruct (flag1_decode h Hop) as (Hb1 & Hrd & Htc & Haa & Hopc & Hqr).
  destruct (flag2_decode h) as (Hb2 & Hrc & Hcd & Had & Hz & Hra).
  unfold header_wire, be16 in Hat. simpl in Hat.
  destruct (Read2Bytes_at_cursor _ _ _ _ Hat) as [R1 H1].
  destruct (Read2Bytes_at_cursor _ _ _ _ H1) as [R2 H2].
  destruct (Read2Bytes_at_cursor _ _ _ _ H2) as [R3 H3].
  destruct (Read2Bytes_at_cursor _ _ _ _ H3) as [R4 H4].
  destruct (Read2Bytes_at_cursor _ _ _ _ H4) as [R5 H5].
  destruct (Read2Bytes_at_cursor _ _ _ _ H5) as [R6 _].
  unfold DnsHeader_Read, bind. rewrite R1, R2, R3, R4, R5, R6.
  unfold ret. rewrite !advance_advance.
  rewrite !read_be16 by assumption.
  destruct (split16 _ _ Hb1 Hb2) as [-> ->].
  rewrite Hrd, Htc, Haa, Hopc, Hqr, Hrc, Hcd, Had, Hz, Hra.
  destruct h. reflexivity.
Qed.

Lemma DnsHeader_Read_decodes_the_layout_witness :
  DnsHeader_Read (SetBuffer (header_wire nxdomain_response_header) NewBytePacketBuffer)
  = (Ok nxdomain_response_header,
     advance (SetBuffer (header_wire nxdomain_response_header) NewBytePacketBuffer) 12).
Proof.
  apply DnsHeader_Read_decodes_the_layout.
  - unfold header_in_range, is_uint16. simpl. lia.
  - unfold at_cursor. split; [simpl; lia|]. split; [simpl; lia|].
    vm_compute. reflexivity.
Defined.

(** X7: [DnsHeader.Read] needs 12 bytes.  With the cursor at most at 500
    it succeeds and moves the cursor by 12; with the cursor beyond 500 it
    fails with the end-of-buffer error, having consumed the bytes up to
    offset 512.  The bytes of the buffer are not changed. *)
Theorem DnsHeader_Read_needs_12_bytes (b : BytePacketBuffer) :
  0 <= Pos b ->
  (Pos b <= 500 -> exists h, DnsHeader_Read b = (Ok h, advance b 12)) /\
  (500 < Pos b ->
   DnsHeader_Read b = (Err EndOfBuffer, mkBuffer (Buf b) (Z.max 512 (Pos b)))).
Proof.
  intros Hp.
  split; intros H; unfold DnsHeader_Read, bind.
  - rewrite Read2Bytes_in_range by lia.
    do 5 (rewrite Read2Bytes_in_range by (simpl; lia); rewrite advance_advance).
    eexists. reflexivity.
  - destruct (Z_le_gt_dec (Pos b) 510) as [Hle|Hgt];
      [|rewrite Read2Bytes_out_of_range by lia; reflexivity].
    rewrite Z.max_l by lia.
    rewrite Read2Bytes_in_range by lia.
    destruct (Z_le_gt_dec (Pos b + 2) 510);
      [|rewrite Read2Bytes_out_of_range by (simpl; lia); simpl; f_equal; f_equal; lia].
    rewrite Read2Bytes_in_range by (simpl; lia). rewrite advance_advance.
    destruct (Z_le_gt_dec (Pos b + 4) 510);
      [|rewrite Read2Bytes_out_of_range by (simpl; lia); simpl; f_equal; f_equal; lia].
    rewrite Read2Bytes_in_range by (simpl; lia). rewrite advance_advance.
    destruct (Z_le_gt_dec (Pos b + 6) 510);
      [|rewrite Read2Bytes_out_of_range by (simpl; lia); simpl; f_equal; f_equal; lia].
    rewrite Read2Bytes_in_range by (simpl; lia). rewrite advance_advance.
    destruct (Z_le_gt_dec (Pos b + 8) 510);
      [|rewrite Read2Bytes_out_of_range by (simpl; lia); simpl; f_equal; f_equal; lia].
    rewrite Read2Bytes_in_range by (simpl; lia). rewrite advance_advance.
    rewrite Read2Bytes_out_of_range by (simpl; lia). simpl. f_equal. f_equal. lia.
Qed.

Lemma DnsHeader_Read_needs_12_bytes_witness :
  DnsHeader_Read (mkBuffer (Buf NewBytePacketBuffer) 501)
  = (Err EndOfBuffer, mkBuffer (Buf NewBytePacketBuffer) 512).
Proof.
  destruct (DnsHeader_Read_needs_12_bytes (mkBuffer (Buf NewBytePacketBuffer) 501))
    as [_ H]; [simpl; lia|].
  apply H. simpl. lia.
Defined.

(** ** The name writer *)









Lemma runs_WriteQName_label l :
  strlen l <= 63 -> runs (WriteQName_label l) (label_wire l).
Proof.
  intros Hl. unfold WriteQName_label, label_wire.
  destruct (Z.ltb_spec 63 (strlen l)); [lia|].
  apply (runs_bind _ _ [_] (_ ++ [0])); [apply runs_write|].
  apply runs_bind; [apply runs_write_bytes|apply runs_write].
Qed.

Lemma runs_WriteQName_labels labels :
  Forall (fun l => strlen l <= 63) labels ->
  runs (WriteQName_labels labels) (concat (map label_wire labels)).
Proof.
  induction 1 as [|l labels Hl _ IH].
  - apply runs_ret.
  - change (runs (WriteQName_label l ;;; WriteQName_labels labels)
                 (label_wire l ++ concat (map label_wire labels))).
    apply runs_bind; [now apply runs_WriteQName_label|exact IH].
Qed.

Lemma WriteQName_labels_Ok_short labels : forall b b',
  WriteQName_labels labels b = (Ok tt, b') ->
  Forall (fun l => strlen l <= 63) labels.
Proof.
  induction labels as [|l labels IH]; intros b b' H; [constructor|].
  simpl in H. apply bind_Ok_inv in H as ([] & b1 & H1 & H2).
  constructor; [|now apply (IH b1 b')].
  unfold WriteQName_label in H1.
  destruct (Z.ltb_spec 63 (strlen l)); [discriminate|lia].
Qed.

(** X8: [WriteQName] succeeds exactly when every label of the name has at
    most 63 bytes and the bytes it emits, for each label the length, the
    label and a zero byte, fit between the cursor and offset 512. *)
Theorem WriteQName_succeeds_iff (b : BytePacketBuffer) (qname : string) :
  length (Buf b) = 512%nat -> 0 <= Pos b <= 512 ->
  (exists b', WriteQName qname b = (Ok tt, b')) <->
  Forall (fun l => strlen l <= 63) (Split_dot qname) /\
  Pos b + Z.of_nat (length (qname_wire qname)) <= 512.
Proof.
  intros Hl Hp. split.
  - intros [b' H]. split.
    + now apply (WriteQName_labels_Ok_short _ b b').
    + destruct (emits_WriteQName qname b b' Hp Hl H) as (_ & HP & Hle). lia.
  - intros [Hshort Hfit].
    destruct (runs_WriteQName_labels _ Hshort b ltac:(lia) Hfit) as (b' & H & _).
    exists b'. exact H.
Qed.

Lemma WriteQName_succeeds_iff_witness :
  (exists b', WriteQName "google.com" NewBytePacketBuffer = (Ok tt, b')) <->
  Forall (fun l => strlen l <= 63) (Split_dot "google.com") /\
  Pos NewBytePacketBuffer + Z.of_nat (length (qname_wire "google.com")) <= 512.
Proof.
  apply (WriteQName_succeeds_iff NewBytePacketBuffer "google.com").
  - reflexivity.
  - simpl. lia.
Defined.



(** X10: the tables of the codes are inverse to each other on the named
    values.  A record type goes to its wire code and back, a response code
    to its number and back, and a wire code is decoded as [UNKNOWN]
    exactly when it is none of 1, 2, 5, 15 and 28. *)
Theorem code_tables_are_inverse :
  (forall t, FromNum2RecordType (RecordTypeToNum t) = t) /\
  (forall c, FromNum2ResultCode (ResultCode_int c) = c) /\
  (forall n, FromNum2RecordType n = UNKNOWN
             <-> n <> 1 /\ n <> 2 /\ n <> 5 /\ n <> 15 /\ n <> 28) /\
  (forall n, FromNum2RecordType n <> UNKNOWN ->
             RecordTypeToNum (FromNum2RecordType n) = n).
Proof.
  split; [intros []; reflexivity|]. split; [intros []; reflexivity|].
  split; intros n; unfold FromNum2RecordType;
    destruct (Z.eqb_spec n 1); [split; [discriminate|lia]| |subst; reflexivity|];
    destruct (Z.eqb_spec n 2); [split; [discriminate|lia]| |subst; reflexivity|];
    destruct (Z.eqb_spec n 5); [split; [discriminate|lia]| |subst; reflexivity|];
    destruct (Z.eqb_spec n 15); [split; [discriminate|lia]| |subst; reflexivity|];
    destruct (Z.eqb_spec n 28); [split; [discriminate|lia]| |subst; reflexivity|].
  - split; [lia|reflexivity].
  - intros H. now contradiction H.
Qed.

(** ** Names written and read back *)









(** ** Questions written and read back *)

Lemma emits_DnsQuestion_Write dq :
  emits (DnsQuestion_Write dq)
        (qname_wire (Name dq) ++ be16 (uint16 (RecordType_int (qtype dq))) ++ be16 1).
Proof.
  unfold DnsQuestion_Write.
  apply emits_bind; [apply emits_WriteQName|].
  apply emits_bind; apply emits_Write2Byte.
Qed.


Lemma bindF_Read4Bytes {X} (k : Z -> MF X) c v w :
  0 <= v < 4294967296 -> at_cursor c (be32 v ++ w) ->
  bindF (liftF Read4Bytes) k c = k v (advance c 4)
  /\ at_cursor (advance c 4) w.
Proof.
  intros Hv Hat. unfold be32 in Hat. simpl in Hat.
  destruct (Read4Bytes_at_cursor _ _ _ _ _ _ Hat) as [R H].
  split; [|exact H].
  unfold bindF, liftF. rewrite R.
  rewrite read32_value by apply uint8_range.
  now rewrite be32_digits.
Qed.







(** ** What the record writer leaves in the buffer *)

Lemma emits_ext (m m' : M unit) w :
  (forall b, m b = m' b) -> emits m w -> emits m' w.
Proof. intros Heq He b b' Hp Hl H. rewrite <- Heq in H. now apply He. Qed.

Lemma emits_fail e w : emits (fail e) w.
Proof. intros b b' _ _ H. discriminate H. Qed.

Lemma insert_two (L1 L2 : list Z) x1 x2 hi lo n :
  length L1 = n ->
  <[S n := lo]> (<[n := hi]> (L1 ++ x1 :: x2 :: L2)) = L1 ++ hi :: lo :: L2.
Proof.
  intros <-.
  rewrite (insert_app_r_alt L1 _ (length L1)) by lia.
  rewrite Nat.sub_diag. simpl.
  rewrite (insert_app_r_alt L1 _ (S (length L1))) by lia.
  replace (S (length L1) - length L1)%nat with 1%nat by lia. reflexivity.
Qed.

(** The placeholder of a length field, once patched, holds the size of
    what was written after it. *)
Lemma emits_length_prefixed (pre body : M unit) wpre wbody x :
  emits pre wpre -> emits body wbody ->
  emits (pre ;;; pos <- get_Pos ;; Write2Byte x ;;; body ;;; backpatch pos)
        (wpre ++ be16 (Z.of_nat (length wbody)) ++ wbody).
Proof.
  intros Hpre Hbody b b' Hp Hl H.
  apply bind_Ok_inv in H as ([] & b1 & H0 & H).
  apply bind_Ok_inv in H as (pos & b1' & Hg & H).
  inversion Hg; subst pos b1'; clear Hg.
  apply bind_Ok_inv in H as ([] & b2 & H1 & H).
  apply bind_Ok_inv in H as ([] & b3 & H2 & H3).
  destruct (Hpre b b1 Hp Hl H0) as (HB1 & HP1 & Hle1).
  assert ((pre ;;; Write2Byte x ;;; body) b = (Ok tt, b3)) as Hall.
  { unfold bind. rewrite H0, H1. exact H2. }
  pose proof (emits_bind _ _ _ _ Hpre (emits_bind _ _ _ _ (emits_Write2Byte x) Hbody))
    as Hchain.
  destruct (Hchain b b3 Hp Hl Hall) as (HB3 & HP3 & Hle3).
  rewrite !length_app in HP3. simpl length in HP3.
  unfold backpatch in H3.
  rewrite Set2Bytes_in_range in H3 by lia.
  inversion H3; subst b'; clear H3. simpl.
  rewrite (uint16_small (Pos b1 + 2)) by lia.
  rewrite (uint16_small (Pos b3 - (Pos b1 + 2))) by lia.
  replace (Pos b3 - (Pos b1 + 2)) with (Z.of_nat (length wbody)) by lia.
  split; [|rewrite !length_app; simpl length; lia].
  rewrite HB3. unfold splice, be16.
  rewrite !length_app. simpl length.
  replace (take (Z.to_nat (Pos b)) (Buf b) ++ (wpre ++ [uint8 (Z.shiftr x 8); uint8 (Z.land x 255)] ++ wbody) ++
           drop (Z.to_nat (Pos b) + (length wpre + (2 + length wbody))) (Buf b))
    with ((take (Z.to_nat (Pos b)) (Buf b) ++ wpre)
          ++ uint8 (Z.shiftr x 8) :: uint8 (Z.land x 255)
          :: (wbody ++ drop (Z.to_nat (Pos b) + (length wpre + (2 + length wbody))) (Buf b)))
    by (rewrite <- !app_assoc; reflexivity).
  replace (Z.to_nat (Pos b1 + 1)) with (S (Z.to_nat (Pos b1))) by lia.
  rewrite (insert_two _ _ _ _ _ _ (Z.to_nat (Pos b1)))
    by (rewrite length_app, length_take; lia).
  rewrite <- !app_assoc. reflexivity.
Qed.

Lemma To16_length a ip : To16 a = Some ip -> length ip = 16%nat.
Proof.
  unfold To16. intros H.
  destruct a as [|a1 [|a2 [|a3 [|a4 [|a5 a]]]]]; try discriminate;
    try (inversion H; reflexivity).
  destruct (Nat.eqb_spec (length (a1 :: a2 :: a3 :: a4 :: a5 :: a)) 16);
    [inversion H; subst; assumption|discriminate].
Qed.

Lemma segments_wire_length ip :
  length ip = 16%nat -> length (segments_wire ip) = 16%nat.
Proof.
  intros H. do 17 (destruct ip as [|? ip]; try discriminate H). reflexivity.
Qed.

Lemma emits_write_segments ip : emits (write_segments ip) (segments_wire ip).
Proof.
  assert (emits (write_segments ip) (segments_wire ip) /\
          forall x, emits (write_segments (x :: ip)) (segments_wire (x :: ip)))
    as [H _]; [|exact H].
  induction ip as [|lo ip [IH1 IH2]].
  - split; [apply emits_ret|intros x; apply emits_ret].
  - split; [apply IH2|]. intros hi.
    change (emits (Write2Byte (Z.lor (uint16 (Z.shiftl hi 8)) lo) ;;; write_segments ip)
                  (be16 (Z.lor (uint16 (Z.shiftl hi 8)) lo) ++ segments_wire ip)).
    apply emits_bind; [apply emits_Write2Byte|exact IH1].
Qed.

(** The [switch] of [DnsRecord.Write] leaves [record_wire] in the buffer. *)
Lemma emits_DnsRecord_Write_body d : emits (DnsRecord_Write_body d) (record_wire d).
Proof.
  unfold DnsRecord_Write_body, record_wire, rdata_wire.
  destruct (Type_ d).
  - apply emits_ret.
  - destruct (To4 (Addr d)) as [ip|].
    + apply emits_bind; [apply emits_write_preamble|].
      apply emits_bind; [apply emits_Write2Byte|].
      apply (emits_bind _ _ [_] [_; _; _]); [apply emits_write|].
      apply (emits_bind _ _ [_] [_; _]); [apply emits_write|].
      apply (emits_bind _ _ [_] [_]); apply emits_write.
    + intros b b' Hp Hl H. exfalso.
      apply bind_Ok_inv in H as ([] & b1 & _ & H).
      apply bind_Ok_inv in H as ([] & b2 & _ & H). discriminate H.
  - apply emits_length_prefixed;
      [apply emits_write_preamble|apply emits_WriteQName].
  - apply emits_length_prefixed;
      [apply emits_write_preamble|apply emits_WriteQName].
  - replace (2 + Z.of_nat (length (qname_wire (Host d))))
      with (Z.of_nat (length (be16 (Priority d) ++ qname_wire (Host d))))
      by (rewrite length_app; simpl length; lia).
    apply (emits_ext
             (write_preamble d MX ;;;
              pos <- get_Pos ;;
              Write2Byte 0 ;;;
              (Write2Byte (Priority d) ;;; WriteQName (Host d)) ;;;
              backpatch pos)).
    + intros b. unfold bind, get_Pos.
      destruct (write_preamble d MX b) as [[[]| |] b1]; try reflexivity.
      destruct (Write2Byte 0 b1) as [[[]| |] b2]; try reflexivity.
      destruct (Write2Byte (Priority d) b2) as [[[]| |] b3]; reflexivity.
    + apply emits_length_prefixed; [apply emits_write_preamble|].
      apply emits_bind; [apply emits_Write2Byte|apply emits_WriteQName].
  - destruct (To16 (Addr d)) as [ip|] eqn:E.
    + replace 16 with (Z.of_nat (length (segments_wire ip)))
        by (rewrite (segments_wire_length ip (To16_length _ _ E)); reflexivity).
      apply emits_length_prefixed;
        [apply emits_write_preamble|apply emits_write_segments].
    + intros b b' Hp Hl H. exfalso.
      apply bind_Ok_inv in H as ([] & b1 & _ & H).
      apply bind_Ok_inv in H as (pos & b1' & _ & H).
      apply bind_Ok_inv in H as ([] & b2 & _ & H). discriminate H.
Qed.

(** X13: when [DnsRecord.Write] succeeds, the count it returns is the
    number of bytes it has left in the buffer from the cursor on, the
    cursor has moved by that count, and the bytes are the name, type, class
    and TTL followed by a length field that holds the size of the data
    after it: 4 and the address for A, 16 and the address for AAAA, the
    size of the host name and the host name for NS and CNAME, 2 more than
    that size, the priority and the host name for MX.  Nothing is left for
    a record of unknown type. *)
Theorem DnsRecord_Write_count_and_bytes
    (d : DnsRecord) (b b' : BytePacketBuffer) (n : Z) :
  length (Buf b) = 512%nat -> 0 <= Pos b <= 512 ->
  DnsRecord_Write d b = (Ok n, b') ->
  n = Z.of_nat (length (record_wire d)) /\
  Pos b' = Pos b + n /\
  Buf b' = splice (Buf b) (Z.to_nat (Pos b)) (record_wire d) /\
  slice b' (Pos b) n = record_wire d.
Proof.
  intros Hl Hp Hw. unfold DnsRecord_Write in Hw.
  apply bind_Ok_inv in Hw as (startPos & b0 & Hs & Hw).
  inversion Hs; subst startPos b0; clear Hs.
  apply bind_Ok_inv in Hw as ([] & b1 & Hw & Hr).
  apply bind_Ok_inv in Hr as (p & b2 & Hg & Hr).
  inversion Hg; subst p b2; clear Hg. inversion Hr; subst; clear Hr.
  destruct (emits_DnsRecord_Write_body d b b' Hp Hl Hw) as (HB & HP & Hle).
  rewrite HP. replace (Pos b + Z.of_nat (length (record_wire d)) - Pos b)
    with (Z.of_nat (length (record_wire d))) by lia.
  rewrite uint16_small by lia.
  repeat split; try assumption.
  unfold slice. rewrite HB, Nat2Z.id. apply splice_slice. lia.
Qed.

Lemma DnsRecord_Write_count_and_bytes_witness :
  43 = Z.of_nat (length (record_wire ns1_record)) /\
  Pos ns1_written = Pos NewBytePacketBuffer + 43 /\
  Buf ns1_written
  = splice (Buf NewBytePacketBuffer) (Z.to_nat (Pos NewBytePacketBuffer))
           (record_wire ns1_record) /\
  slice ns1_written (Pos NewBytePacketBuffer) 43 = record_wire ns1_record.
Proof.
  apply (DnsRecord_Write_count_and_bytes ns1_record NewBytePacketBuffer ns1_written 43).
  - reflexivity.
  - simpl. lia.
  - vm_compute. reflexivity.
Defined.

(** ** Records written and read back *)







Lemma FromNum2RecordType_RecordTypeToNum t :
  FromNum2RecordType (RecordTypeToNum t) = t.
Proof. destruct t; reflexivity. Qed.














(** ** Addresses of the wrong width *)

Lemma runs_write_preamble d t :
  Forall (fun l => strlen l <= 63) (Split_dot (Domain d)) ->
  runs (write_preamble d t) (preamble_wire d t).
Proof.
  intros H. unfold write_preamble, preamble_wire.
  apply runs_bind; [now apply runs_WriteQName_labels|].
  apply runs_bind; [apply runs_Write2Byte|].
  apply runs_bind; [apply runs_Write2Byte|apply runs_Write4Byte].
Qed.

(** X16: an address that [To4] (for an A record) or [To16] (for an AAAA
    record) refuses makes [DnsRecord.Write] fail with the invalid-address
    error of the type, when the fields before the address fit.  The failure
    comes after these fields are written: the name, type, class, TTL and
    the length (4 or 16) are in the buffer and the cursor is past them. *)
Theorem DnsRecord_Write_invalid_address
    (d : DnsRecord) (b : BytePacketBuffer) (e : error) (len : Z) :
  (Type_ d = A /\ To4 (Addr d) = None /\ e = InvalidIPv4 /\ len = 4) \/
  (Type_ d = AAAA /\ To16 (Addr d) = None /\ e = InvalidIPv6 /\ len = 16) ->
  length (Buf b) = 512%nat -> 0 <= Pos b ->
  Forall (fun l => strlen l <= 63) (Split_dot (Domain d)) ->
  Pos b + Z.of_nat (length (preamble_wire d (Type_ d))) + 2 <= 512 ->
  exists b',
    DnsRecord_Write d b = (Err e, b') /\
    Pos b' = Pos b + Z.of_nat (length (preamble_wire d (Type_ d))) + 2 /\
    slice b' (Pos b) (Z.of_nat (length (preamble_wire d (Type_ d))) + 2)
    = preamble_wire d (Type_ d) ++ be16 len.
Proof.
  intros Hcase Hl Hp Hshort Hfit.
  assert (forall t, Type_ d = t ->
            exists b', (write_preamble d t ;;; Write2Byte len) b = (Ok tt, b') /\
                       Pos b' = Pos b + Z.of_nat (length (preamble_wire d t)) + 2 /\
                       slice b' (Pos b) (Z.of_nat (length (preamble_wire d t)) + 2)
                       = preamble_wire d t ++ be16 len) as Hpre.
  { intros t Et. rewrite Et in Hfit.
    pose proof (runs_bind _ _ _ _ (runs_write_preamble d t Hshort)
                  (runs_Write2Byte len)) as Hr.
    pose proof (emits_bind _ _ _ _ (emits_write_preamble d t)
                  (emits_Write2Byte len)) as He.
    destruct (Hr b Hp ltac:(rewrite length_app; simpl length; lia)) as (b' & Hw & HP).
    exists b'. split; [exact Hw|].
    rewrite length_app in HP. simpl length in HP. split; [lia|].
    destruct (He b b' ltac:(lia) Hl Hw) as (HB & _ & _).
    unfold slice. rewrite HB.
    replace (Z.to_nat (Z.of_nat (length (preamble_wire d t)) + 2))
      with (length (preamble_wire d t ++ be16 len))
      by (rewrite length_app; simpl length; lia).
    apply splice_slice. rewrite length_app. simpl length. lia. }
  unfold DnsRecord_Write, DnsRecord_Write_body.
  destruct Hcase as [(Et & Eip & -> & ->)|(Et & Eip & -> & ->)]; rewrite Et, Eip.
  - destruct (Hpre A Et) as (b' & Hw & HP & Hs).
    exists b'. split; [|split; assumption].
    unfold bind in *. unfold get_Pos.
    destruct (write_preamble d A b) as [[[]| |] b1]; try discriminate Hw.
    rewrite Hw. reflexivity.
  - destruct (Hpre AAAA Et) as (b' & Hw & HP & Hs).
    exists b'. split; [|split; assumption].
    unfold bind in *. unfold get_Pos.
    destruct (write_preamble d AAAA b) as [[[]| |] b1]; try discriminate Hw.
    rewrite Hw. reflexivity.
Qed.

Lemma DnsRecord_Write_invalid_address_witness :
  exists b',
    DnsRecord_Write bad_a_record NewBytePacketBuffer = (Err InvalidIPv4, b') /\
    Pos b' = Pos NewBytePacketBuffer
             + Z.of_nat (length (preamble_wire bad_a_record (Type_ bad_a_record))) + 2 /\
    slice b' (Pos NewBytePacketBuffer)
          (Z.of_nat (length (preamble_wire bad_a_record (Type_ bad_a_record))) + 2)
    = preamble_wire bad_a_record (Type_ bad_a_record) ++ be16 4.
Proof.
  apply (DnsRecord_Write_invalid_address bad_a_record NewBytePacketBuffer InvalidIPv4 4).
  - left. repeat split; reflexivity.
  - reflexivity.
  - simpl. lia.
  - repeat constructor. vm_compute. discriminate.
  - vm_compute. discriminate.
Defined.

(** ** The decoder is total and safe *)

Lemma decodes_ret {X} (x : X) : decodes (retF x).
Proof.
  intros b (Hl & Hb & Hp). exists (Ok x), b. simpl. auto.
Qed.

Lemma decodes_bind {X Y} (m : MF X) (k : X -> MF Y) :
  decodes m -> (forall x, decodes (k x)) -> decodes (bindF m k).
Proof.
  intros Hm Hk b Hwf.
  destruct (Hm b Hwf) as (r & b1 & E & Hr & HB & HP).
  unfold bindF. rewrite E.
  destruct r as [x|e|]; simpl in Hr; [|exists (Err e), b1; simpl; auto|contradiction].
  assert (buf_wf b1) as Hwf1.
  { destruct Hwf as (Hl & Hb & _). unfold buf_wf. rewrite HB. auto. }
  destruct (Hk x b1 Hwf1) as (r2 & b2 & E2 & Hr2 & HB2 & HP2).
  exists r2, b2. split; [exact E2|]. split; [assumption|].
  split; [congruence|assumption].
Qed.

Lemma reads_ret {X} (x : X) : reads (ret x).
Proof. intros b (Hl & Hb & Hp). simpl. auto. Qed.

Lemma reads_bind {X Y} (m : M X) (k : X -> M Y) :
  reads m -> (forall x, reads (k x)) -> reads (bind m k).
Proof.
  intros Hm Hk b Hwf.
  destruct (Hm b Hwf) as (Hr & HB & HP).
  unfold bind. destruct (m b) as [[x|e|] b1]; simpl in *; auto.
  assert (buf_wf b1) as Hwf1.
  { destruct Hwf as (Hl & Hb & _). unfold buf_wf. rewrite HB. auto. }
  destruct (Hk x b1 Hwf1) as (Hr2 & HB2 & HP2).
  split; [assumption|]. split; [congruence|assumption].
Qed.

Lemma reads_Read : reads Read.
Proof.
  intros b (Hl & Hb & Hp). unfold Read.
  destruct (512 <=? Pos b); simpl; auto.
  split; [exact I|]. split; [reflexivity|apply uint16_range].
Qed.

Lemma reads_Read2Bytes : reads Read2Bytes.
Proof.
  unfold Read2Bytes.
  repeat (apply reads_bind; [apply reads_Read|intros ?]). apply reads_ret.
Qed.

Lemma reads_Read4Bytes : reads Read4Bytes.
Proof.
  unfold Read4Bytes.
  repeat (apply reads_bind; [apply reads_Read|intros ?]). apply reads_ret.
Qed.

Lemma reads_Step n : reads (Step n).
Proof.
  intros b (Hl & Hb & Hp). unfold Step. simpl.
  split; [exact I|]. split; [reflexivity|apply uint16_range].
Qed.

Lemma reads_DnsHeader_Read : reads DnsHeader_Read.
Proof.
  unfold DnsHeader_Read.
  repeat (apply reads_bind; [apply reads_Read2Bytes|intros ?]). apply reads_ret.
Qed.

Lemma decodes_lift {X} (m : M X) : reads m -> decodes (liftF m).
Proof.
  intros Hm b Hwf. destruct (Hm b Hwf) as (Hr & HB & HP).
  unfold liftF. destruct (m b) as [r b1]. exists r, b1. simpl in *. auto.
Qed.

Lemma decodes_Read2Bytes : decodes (liftF Read2Bytes).
Proof. apply decodes_lift, reads_Read2Bytes. Qed.

Lemma decodes_Read4Bytes : decodes (liftF Read4Bytes).
Proof. apply decodes_lift, reads_Read4Bytes. Qed.

Lemma decodes_Step n : decodes (liftF (Step n)).
Proof. apply decodes_lift, reads_Step. Qed.

(** The loop of [ReadQName] changes no byte, keeps the cursor in 16 bits
    and does not panic: the slice it takes starts at 512 at most and has
    less than 256 bytes, so its bounds do not wrap. *)
Lemma ReadQName_loop_safe fuel : forall pos jumped jumps delim sb b r b',
  Forall is_byte (Buf b) -> is_uint16 (Pos b) -> 0 <= pos ->
  ReadQName_loop fuel pos jumped jumps delim sb b = Some (r, b') ->
  Buf b' = Buf b /\ is_uint16 (Pos b') /\
  match r with
  | Ok (endpos, _, _) => is_uint16 endpos
  | Err e => e = EndOfBuffer \/ e = TooManyJumps
  | Panic => False
  end.
Proof.
  induction fuel as [|fuel IH];
    intros pos jumped jumps delim sb b r b' Hwf HP Hpos H; [discriminate|].
  rewrite ReadQName_loop_S in H.
  destruct (maxJums <? jumps); [inversion H; subst; auto|].
  unfold Get at 1 in H.
  destruct (Z.leb_spec 512 pos) as [|Hp512]; [inversion H; subst; auto|].
  pose proof (byte_at_is_byte b pos Hwf) as Hlen. unfold is_byte in Hlen.
  destruct (Z.land (byte_at b pos) 192 =? 192).
  - set (b2 := if jumped then b else mkBuffer (Buf b) (uint16 (pos + 2))).
    assert ((if jumped then ret tt else Seek (uint16 (pos + 2))) b = (Ok tt, b2)) as E2
        by (unfold b2; destruct jumped; reflexivity).
    assert (Buf b2 = Buf b /\ is_uint16 (Pos b2)) as [HB2 HP2].
    { unfold b2. destruct jumped; simpl; split; auto. apply uint16_range. }
    rewrite E2 in H. unfold Get in H.
    destruct (512 <=? uint16 (pos + 1)); [inversion H; subst; auto|].
    apply IH in H; try assumption; try (now rewrite HB2).
    + destruct H as (HB & HP' & Hr). split; [congruence|auto].
    + pose proof (byte_at_is_byte b2 (uint16 (pos + 1)) ltac:(now rewrite HB2)) as Hb.
      unfold is_byte in Hb. apply Z.lor_nonneg. split; [apply uint16_range|lia].
  - destruct (byte_at b pos =? 0).
    { inversion H; subst. split; [reflexivity|]. split; [assumption|apply uint16_range]. }
    rewrite (uint16_small (pos + 1)) in H by lia.
    unfold GetRange in H.
    rewrite (uint16_small (pos + 1 + byte_at b pos)) in H by lia.
    destruct (512 <=? pos + 1 + byte_at b pos); [inversion H; subst; auto|].
    destruct (Z.ltb_spec (pos + 1 + byte_at b pos) (pos + 1)); [lia|].
    apply IH in H; try assumption. lia.
Qed.

Lemma decodes_ReadQName : decodes ReadQName.
Proof.
  intros b Hwf. pose proof Hwf as (Hl & Hb & Hp).
  pose proof Hp as Hp'. unfold is_uint16 in Hp'.
  destruct (ReadQName_loop_total ReadQName_fuel (Pos b) false 0 "" "" b Hb
              ltac:(lia) ltac:(lia)
              (passes_left_initial (Pos b) 0 ltac:(lia) ltac:(lia)))
    as [[r b1] Hr].
  destruct (ReadQName_loop_safe ReadQName_fuel (Pos b) false 0 "" "" b r b1 Hb Hp
              ltac:(lia) Hr)
    as (HB & HP & Hout).
  unfold ReadQName, ReadQName_with. rewrite Hr.
  destruct r as [[[endpos jumped] sb]|e|]; [|eexists _, _; split; [reflexivity|];
                                              simpl; auto|contradiction].
  destruct jumped.
  - eexists _, _. split; [reflexivity|]. simpl. auto.
  - eexists _, _. split; [reflexivity|]. simpl. auto.
Qed.

Lemma decodes_DnsQuestion_Read : decodes DnsQuestion_Read.
Proof.
  unfold DnsQuestion_Read.
  apply decodes_bind; [apply decodes_ReadQName|intros name].
  apply decodes_bind; [apply decodes_Read2Bytes|intros t].
  apply decodes_bind; [apply decodes_Read2Bytes|intros _].
  apply decodes_ret.
Qed.

Lemma decodes_ReadDnsRecord : decodes ReadDnsRecord.
Proof.
  unfold ReadDnsRecord.
  apply decodes_bind; [apply decodes_ReadQName|intros domain].
  apply decodes_bind; [apply decodes_Read2Bytes|intros qtypeNum].
  cbv zeta.
  apply decodes_bind; [apply decodes_Read2Bytes|intros _].
  apply decodes_bind; [apply decodes_Read4Bytes|intros ttl].
  apply decodes_bind; [apply decodes_Read2Bytes|intros dataLen].
  destruct (FromNum2RecordType qtypeNum).
  - apply decodes_bind; [apply decodes_Step|intros _]. apply decodes_ret.
  - apply decodes_bind; [apply decodes_Read4Bytes|intros ?]. apply decodes_ret.
  - apply decodes_bind; [apply decodes_ReadQName|intros ?]. apply decodes_ret.
  - apply decodes_bind; [apply decodes_ReadQName|intros ?]. apply decodes_ret.
  - apply decodes_bind; [apply decodes_Read2Bytes|intros ?].
    apply decodes_bind; [apply decodes_ReadQName|intros ?]. apply decodes_ret.
  - repeat (apply decodes_bind; [apply decodes_Read4Bytes|intros ?]).
    apply decodes_ret.
Qed.

Lemma decodes_read_many {X} (read : MF X) n :
  decodes read -> forall acc, decodes (read_many read n acc).
Proof.
  intros Hr. induction n as [|n IH]; intros acc; simpl.
  - apply decodes_ret.
  - apply decodes_bind; [exact Hr|intros x; apply IH].
Qed.

Lemma decodes_DnsHeader_Read : decodes (liftF DnsHeader_Read).
Proof. apply decodes_lift, reads_DnsHeader_Read. Qed.

(** X17: the decoder is total and safe on every well-formed buffer,
    whatever its bytes.  [ReadQName], [DnsQuestion.Read], [ReadDnsRecord]
    and [FromBuffer2DnsPacket] return (the fuel of the model is never used
    up), with a value or with the end-of-buffer or the too-many-jumps
    error; they do not panic, they change no byte of the buffer, and they
    leave a cursor of 16 bits. *)
Theorem decoder_is_total_and_safe (b : BytePacketBuffer) :
  buf_wf b ->
  (exists r b', ReadQName b = Some (r, b') /\
                decoder_outcome r /\ Buf b' = Buf b /\ is_uint16 (Pos b')) /\
  (exists r b', DnsQuestion_Read b = Some (r, b') /\
                decoder_outcome r /\ Buf b' = Buf b /\ is_uint16 (Pos b')) /\
  (exists r b', ReadDnsRecord b = Some (r, b') /\
                decoder_outcome r /\ Buf b' = Buf b /\ is_uint16 (Pos b')) /\
  (exists r b', FromBuffer2DnsPacket b = Some (r, b') /\
                decoder_outcome r /\ Buf b' = Buf b /\ is_uint16 (Pos b')).
Proof.
  intros Hwf. split; [|split; [|split]].
  - now apply decodes_ReadQName.
  - now apply decodes_DnsQuestion_Read.
  - now apply decodes_ReadDnsRecord.
  - revert b Hwf. change (decodes FromBuffer2DnsPacket).
    unfold FromBuffer2DnsPacket.
    apply decodes_bind; [apply decodes_DnsHeader_Read|intros h].
    apply decodes_bind;
      [apply decodes_read_many, decodes_DnsQuestion_Read|intros qs].
    do 3 (apply decodes_bind;
          [apply decodes_read_many, decodes_ReadDnsRecord|intros ?]).
    apply decodes_ret.
Qed.

Lemma decoder_is_total_and_safe_witness :
  exists r b', FromBuffer2DnsPacket pointer_cycle_buffer = Some (r, b') /\
               decoder_outcome r /\ Buf b' = Buf pointer_cycle_buffer /\
               is_uint16 (Pos b').
Proof.
  destruct (decoder_is_total_and_safe pointer_cycle_buffer) as (_ & _ & _ & H).
  - apply buf_wfb_correct. vm_compute. reflexivity.
  - exact H.
Defined.

(** ** The encoder is safe *)
























(** ** The bytes of a whole message *)

Lemma emits_DnsHeader_Write h : emits (DnsHeader_Write h) (header_written h).
Proof.
  unfold DnsHeader_Write, header_written. cbv zeta.
  apply emits_bind; [apply emits_Write2Byte|].
  apply (emits_bind _ _ [_] _); [apply emits_write|].
  do 3 (apply emits_bind; [apply emits_Write2Byte|]).
  apply emits_Write2Byte.
Qed.

Lemma emits_write_questions l :
  emits (write_questions l) (concat (map question_wire l)).
Proof.
  induction l as [|q l IH]; cbn [write_questions concat map].
  - apply emits_ret.
  - apply emits_bind; [apply emits_DnsQuestion_Write|exact IH].
Qed.

Lemma emits_write_records l :
  emits (write_records l) (concat (map record_wire l)).
Proof.
  induction l as [|r l IH]; cbn [write_records concat map].
  - apply emits_ret.
  - apply (emits_ext (DnsRecord_Write_body r ;;; write_records l)).
    + intros b. unfold DnsRecord_Write, bind, get_Pos.
      destruct (DnsRecord_Write_body r b) as [[[]|e|] b1]; reflexivity.
    + apply emits_bind; [apply emits_DnsRecord_Write_body|exact IH].
Qed.

Lemma DnsPacket_Write_Ok d b d' b' :
  DnsPacket_Write d b = (Ok d', b') ->
  d' = set_counts d /\
  (DnsHeader_Write (Header (set_counts d)) ;;;
   write_questions (PQuestions d) ;;;
   write_records (PAnswers d) ;;;
   write_records (Authorities d) ;;;
   write_records (Resources d)) b = (Ok tt, b').
Proof.
  unfold DnsPacket_Write. cbv zeta.
  change (PQuestions (set_counts d)) with (PQuestions d).
  change (PAnswers (set_counts d)) with (PAnswers d).
  change (Authorities (set_counts d)) with (Authorities d).
  change (Resources (set_counts d)) with (Resources d).
  intros H.
  apply bind_Ok_inv in H as ([] & b1 & H1 & H).
  apply bind_Ok_inv in H as ([] & b2 & H2 & H).
  apply bind_Ok_inv in H as ([] & b3 & H3 & H).
  apply bind_Ok_inv in H as ([] & b4 & H4 & H).
  apply bind_Ok_inv in H as ([] & b5 & H5 & H).
  inversion H; subst. split; [reflexivity|].
  unfold bind. rewrite H1, H2, H3, H4. exact H5.
Qed.

(** X19: the bytes of a whole message.  When [DnsPacket.Write] succeeds,
    the packet it returns is the one it was given with the four counts of
    the header set to the lengths of the lists (as 16-bit values), and the
    buffer holds, from the cursor on and with nothing else changed, the 11
    bytes of that header, then the bytes of each question, then those of
    each answer, authority and additional record, in this order; the
    cursor is after them. *)
Theorem DnsPacket_Write_bytes (d d' : DnsPacket) (b b' : BytePacketBuffer) :
  length (Buf b) = 512%nat -> 0 <= Pos b <= 512 ->
  DnsPacket_Write d b = (Ok d', b') ->
  d' = set_counts d /\
  Questions (Header d') = uint16 (Z.of_nat (length (PQuestions d))) /\
  Answers (Header d') = uint16 (Z.of_nat (length (PAnswers d))) /\
  AuthoritativeEntries (Header d') = uint16 (Z.of_nat (length (Authorities d))) /\
  ResourceEntries (Header d') = uint16 (Z.of_nat (length (Resources d))) /\
  length (header_written (Header d')) = 11%nat /\
  Buf b' = splice (Buf b) (Z.to_nat (Pos b)) (packet_wire d) /\
  Pos b' = Pos b + Z.of_nat (length (packet_wire d)) /\
  Pos b' <= 512.
Proof.
  intros Hl Hp H. apply DnsPacket_Write_Ok in H as [-> H].
  do 6 (split; [reflexivity|]).
  refine (emits_bind _ _ _ _ (emits_DnsHeader_Write _)
            (emits_bind _ _ _ _ (emits_write_questions _)
               (emits_bind _ _ _ _ (emits_write_records _)
                  (emits_bind _ _ _ _ (emits_write_records _)
                     (emits_write_records _)))) b b' Hp Hl H).
Qed.

Lemma DnsPacket_Write_bytes_witness :
  set_counts google_query = set_counts google_query /\
  Questions (Header (set_counts google_query))
  = uint16 (Z.of_nat (length (PQuestions google_query))) /\
  Answers (Header (set_counts google_query))
  = uint16 (Z.of_nat (length (PAnswers google_query))) /\
  AuthoritativeEntries (Header (set_counts google_query))
  = uint16 (Z.of_nat (length (Authorities google_query))) /\
  ResourceEntries (Header (set_counts google_query))
  = uint16 (Z.of_nat (length (Resources google_query))) /\
  length (header_written (Header (set_counts google_query))) = 11%nat /\
  Buf (snd (DnsPacket_Write google_query NewBytePacketBuffer))
  = splice (Buf NewBytePacketBuffer) (Z.to_nat (Pos NewBytePacketBuffer))
           (packet_wire google_query) /\
  Pos (snd (DnsPacket_Write google_query NewBytePacketBuffer))
  = Pos NewBytePacketBuffer + Z.of_nat (length (packet_wire google_query)) /\
  Pos (snd (DnsPacket_Write google_query NewBytePacketBuffer)) <= 512.
Proof.
  apply (DnsPacket_Write_bytes google_query (set_counts google_query)
           NewBytePacketBuffer
           (snd (DnsPacket_Write google_query NewBytePacketBuffer))).
  - reflexivity.
  - simpl. lia.
  - vm_compute. reflexivity.
Defined.

(** ** The sections of a decoded message *)

Lemma bindF_Ok_inv {X Y} (m : MF X) (k : X -> MF Y) b y b' :
  bindF m k b = Some (Ok y, b') ->
  exists x b1, m b = Some (Ok x, b1) /\ k x b1 = Some (Ok y, b').
Proof.
  unfold bindF. destruct (m b) as [[[x|e|] b1]|]; intros H; try discriminate.
  exists x, b1. split; [reflexivity|assumption].
Qed.

Lemma read_many_length {X} (read : MF X) n :
  forall acc b l b',
    read_many read n acc b = Some (Ok l, b') ->
    length l = (length acc + n)%nat.
Proof.
  induction n as [|n IH]; intros acc b l b' H.
  - inversion H; subst. lia.
  - cbn [read_many] in H.
    apply bindF_Ok_inv in H as (x & b1 & _ & H).
    apply IH in H. rewrite length_app in H. simpl in H. lia.
Qed.

(** X20: a message that [FromBuffer2DnsPacket] returns has the header
    [DnsHeader.Read] decodes at the cursor, and as many questions,
    answers, authority records and additional records as the four counts
    of that header say: every entry announced is read, one that cannot be
    read is an error for the whole message. *)
Theorem FromBuffer2DnsPacket_counts (b : BytePacketBuffer) (p : DnsPacket) :
  option_map fst (FromBuffer2DnsPacket b) = Some (Ok p) ->
  fst (DnsHeader_Read b) = Ok (Header p) /\
  length (PQuestions p) = Z.to_nat (Questions (Header p)) /\
  length (PAnswers p) = Z.to_nat (Answers (Header p)) /\
  length (Authorities p) = Z.to_nat (AuthoritativeEntries (Header p)) /\
  length (Resources p) = Z.to_nat (ResourceEntries (Header p)).
Proof.
  intros H.
  destruct (FromBuffer2DnsPacket b) as [[r b']|] eqn:E; [|discriminate].
  simpl in H. inversion H; subst r; clear H.
  unfold FromBuffer2DnsPacket in E.
  apply bindF_Ok_inv in E as (h & b1 & Hh & E).
  apply bindF_Ok_inv in E as (qs & b2 & Hq & E).
  apply bindF_Ok_inv in E as (ans & b3 & Ha & E).
  apply bindF_Ok_inv in E as (auth & b4 & Hu & E).
  apply bindF_Ok_inv in E as (res & b5 & Hr & E).
  inversion E; subst; clear E. simpl.
  unfold liftF in Hh. inversion Hh as [Hh'].
  apply read_many_length in Hq, Ha, Hu, Hr. simpl in Hq, Ha, Hu, Hr.
  rewrite Hh'. simpl. repeat split; assumption.
Qed.

Lemma FromBuffer2DnsPacket_counts_witness :
  fst (DnsHeader_Read google_response_buffer) = Ok (Header google_response) /\
  length (PQuestions google_response)
  = Z.to_nat (Questions (Header google_response)) /\
  length (PAnswers google_response)
  = Z.to_nat (Answers (Header google_response)) /\
  length (Authorities google_response)
  = Z.to_nat (AuthoritativeEntries (Header google_response)) /\
  length (Resources google_response)
  = Z.to_nat (ResourceEntries (Header google_response)).
Proof.
  apply (FromBuffer2DnsPacket_counts google_response_buffer google_response).
  vm_compute. reflexivity.
Defined.

(** ** The setters *)

(** X21: [Set2Bytes] has no bound check.  On a buffer of 512 bytes it
    panics exactly when the offset is 511 or more (the second byte, or
    both, fall outside the array); up to offset 510 it stores the value
    big-endian at the offset, so that [Read2Bytes] there returns it, and
    changes neither the cursor, nor the size, nor any other byte. *)
Theorem Set2Bytes_unchecked (b : BytePacketBuffer) (pos v : Z) :
  length (Buf b) = 512%nat -> is_uint16 pos -> is_uint16 v ->
  (fst (Set2Bytes pos v b) = Panic <-> 511 <= pos) /\
  (pos <= 510 ->
   fst (Set2Bytes pos v b) = Ok tt /\
   Pos (snd (Set2Bytes pos v b)) = Pos b /\
   length (Buf (snd (Set2Bytes pos v b))) = 512%nat /\
   fst (Read2Bytes (mkBuffer (Buf (snd (Set2Bytes pos v b))) pos)) = Ok v /\
   forall i, 0 <= i -> i <> pos -> i <> pos + 1 ->
             byte_at (snd (Set2Bytes pos v b)) i = byte_at b i).
Proof.
  intros Hl [Hp0 Hp1] Hv. split.
  - destruct (Z.le_gt_cases pos 510) as [Hle|Hgt].
    + rewrite Set2Bytes_in_range by lia. simpl. split; [discriminate|lia].
    + split; [lia|intros _].
      unfold Set2Bytes, bind, Set_.
      destruct (Z.leb_spec 512 pos); [reflexivity|].
      assert (pos = 511) as -> by lia. reflexivity.
  - intros Hle. rewrite Set2Bytes_in_range by lia. simpl.
    split; [reflexivity|]. split; [reflexivity|].
    split; [rewrite !length_insert; assumption|].
    split; [apply Read2Bytes_patched; [assumption|lia|exact Hv]|].
    intros i Hi H1 H2. unfold byte_at. simpl.
    rewrite !list_lookup_insert_ne by lia. reflexivity.
Qed.

Lemma Set2Bytes_unchecked_witness :
  (fst (Set2Bytes 511 258 NewBytePacketBuffer) = Panic <-> 511 <= 511) /\
  (511 <= 510 ->
   fst (Set2Bytes 511 258 NewBytePacketBuffer) = Ok tt /\
   Pos (snd (Set2Bytes 511 258 NewBytePacketBuffer)) = Pos NewBytePacketBuffer /\
   length (Buf (snd (Set2Bytes 511 258 NewBytePacketBuffer))) = 512%nat /\
   fst (Read2Bytes (mkBuffer (Buf (snd (Set2Bytes 511 258 NewBytePacketBuffer))) 511))
   = Ok 258 /\
   forall i, 0 <= i -> i <> 511 -> i <> 511 + 1 ->
             byte_at (snd (Set2Bytes 511 258 NewBytePacketBuffer)) i
             = byte_at NewBytePacketBuffer i).
Proof.
  apply (Set2Bytes_unchecked NewBytePacketBuffer 511 258).
  - reflexivity.
  - unfold is_uint16. lia.
  - unfold is_uint16. lia.
Defined.

(** ** Names in the documented format *)





(** ** Records with any name *)



(** ** Names at the end of the buffer *)

Lemma ReadQName_of_loop_error b e b' fuel :
  buf_wf b ->
  ReadQName_loop fuel (Pos b) false 0 "" "" b = Some (Err e, b') ->
  ReadQName b = Some (Err e, b').
Proof.
  intros (_ & Hb & Hp) E. unfold is_uint16 in Hp.
  apply ReadQName_loop_fuel_enough in E; [|assumption|lia|lia].
  unfold ReadQName, ReadQName_with. rewrite E. reflexivity.
Qed.

(** X24: names at the end of the buffer.  With the cursor at 512 or more
    [ReadQName] returns the end-of-buffer error.  A label whose last byte
    would be at offset 511 or further makes it return that error as well,
    with the cursor where it was: a label that ends on the last byte of
    the array is inside the array and is still refused, because [GetRange]
    refuses a range that ends at 512.  A pointer whose first byte is the
    last byte of the array gives the error after the cursor has been moved
    to 513. *)
Theorem ReadQName_at_the_end (b : BytePacketBuffer) :
  buf_wf b ->
  (512 <= Pos b -> ReadQName b = Some (Err EndOfBuffer, b)) /\
  (Pos b < 512 -> byte_at b (Pos b) <> 0 ->
   Z.land (byte_at b (Pos b)) 192 <> 192 ->
   512 <= Pos b + 1 + byte_at b (Pos b) ->
   ReadQName b = Some (Err EndOfBuffer, b)) /\
  (Pos b = 511 -> Z.land (byte_at b 511) 192 = 192 ->
   ReadQName b = Some (Err EndOfBuffer, mkBuffer (Buf b) 513)).
Proof.
  intros Hwf. pose proof Hwf as (Hl & Hb & Hp). unfold is_uint16 in Hp.
  split; [|split].
  - intros Hge. apply (ReadQName_of_loop_error b _ _ 1 Hwf).
    rewrite ReadQName_loop_S. unfold maxJums.
    change (5 <? 0) with false. cbv iota.
    rewrite Get_out_of_range by lia. reflexivity.
  - intros Hlt Hn0 Hnp Hend.
    pose proof (byte_at_is_byte b (Pos b) Hb) as Hbyte. unfold is_byte in Hbyte.
    apply (ReadQName_of_loop_error b _ _ 1 Hwf).
    rewrite ReadQName_loop_S. unfold maxJums.
    change (5 <? 0) with false. cbv iota.
    rewrite Get_in_range by lia.
    destruct (Z.eqb_spec (Z.land (byte_at b (Pos b)) 192) 192); [contradiction|].
    destruct (Z.eqb_spec (byte_at b (Pos b)) 0); [contradiction|].
    rewrite (uint16_small (Pos b + 1)) by lia.
    rewrite GetRange_out_of_range by lia. reflexivity.
  - intros H511 Hptr.
    apply (ReadQName_of_loop_error b _ _ 1 Hwf).
    rewrite ReadQName_loop_S. unfold maxJums.
    change (5 <? 0) with false. cbv iota.
    rewrite Get_in_range by lia. rewrite H511, Hptr.
    change (192 =? 192) with true. cbv iota.
    unfold Seek. change (uint16 (511 + 2)) with 513.
    change (uint16 (511 + 1)) with 512.
    rewrite Get_out_of_range by lia. reflexivity.
Qed.

Lemma ReadQName_at_the_end_witness :
  ReadQName last_byte_label_buffer = Some (Err EndOfBuffer, last_byte_label_buffer).
Proof.
  destruct (ReadQName_at_the_end last_byte_label_buffer) as (_ & H & _).
  - apply buf_wfb_correct. vm_compute. reflexivity.
  - apply H.
    + simpl. lia.
    + vm_compute. discriminate.
    + vm_compute. discriminate.
    + vm_compute. discriminate.
Defined.
